(** * React+RAG.py: a shallow embedding of the script and its properties

    The script assembles a conversational agent from library parts.  Its own
    code is: the configuration read at import time (lines 25-29), three tool
    functions (lines 34-78) and the interactive loop (lines 144-155).

    Everything the script calls but does not define (the encyclopedia client,
    the chat-completion client, the agent executor, the system clock, the
    .env file) is taken as an oracle bundled in [Externals]; every theorem is
    universally quantified over these oracles, so it holds whatever the
    services answer. *)

From Stdlib Require Import String Ascii List NArith Lia Bool.
From stdpp Require Import base option gmap strings list.

Import ListNotations.
Local Open Scope string_scope.
Local Open Scope list_scope.

(** ** Text *)

(** A Python [str] is modelled as a Rocq [string]: the bytes of its UTF-8
    encoding, as the terminal delivers them. *)
Module Str.

Definition is_upper (c : ascii) : bool :=
  (65 <=? N_of_ascii c)%N && (N_of_ascii c <=? 90)%N.

Definition lower_char (c : ascii) : ascii :=
  if is_upper c then ascii_of_N (N_of_ascii c + 32) else c.

(** [str.lower] (line 148).  Bytes outside [A-Z] are kept.  Python also
    maps cased letters outside ASCII, but no such letter is mapped into
    the letters q, u, i, t, and every byte of its encoding is above 127
    before and after, so the comparison of line 148 with the literal
    [quit] has the same outcome on this model. *)
Fixpoint lower (s : string) : string :=
  match s with
  | EmptyString => EmptyString
  | String c s' => String (lower_char c) (lower s')
  end.

(** The code points [str.isspace] holds for, which are the ones
    [str.strip()] removes: the ASCII controls TAB to CR and FS to US, the
    space, NEL, the no-break space and the spaces of the general
    punctuation and CJK blocks. *)
Definition whitespace : list N :=
  [ 0x09; 0x0A; 0x0B; 0x0C; 0x0D; 0x1C; 0x1D; 0x1E; 0x1F; 0x20;
    0x85; 0xA0; 0x1680;
    0x2000; 0x2001; 0x2002; 0x2003; 0x2004; 0x2005; 0x2006; 0x2007;
    0x2008; 0x2009; 0x200A;
    0x2028; 0x2029; 0x202F; 0x205F; 0x3000 ]%N.

(** The UTF-8 encoding of a code point of the basic plane. *)
Definition utf8 (cp : N) : string :=
  let byte n := ascii_of_N n in
  if N.ltb cp 128 then String (byte cp) EmptyString
  else if N.ltb cp 2048 then
    String (byte (192 + cp / 64)%N)
      (String (byte (128 + cp mod 64)%N) EmptyString)
  else
    String (byte (224 + cp / 4096)%N)
      (String (byte (128 + (cp / 64) mod 64)%N)
         (String (byte (128 + cp mod 64)%N) EmptyString)).

(** [s] without the prefix [p], when it starts with it. *)
Fixpoint drop_prefix (p s : string) : option string :=
  match p, s with
  | EmptyString, _ => Some s
  | String a p', String b s' =>
      if Ascii.eqb a b then drop_prefix p' s' else None
  | String _ _, EmptyString => None
  end.

(** [s] without its first character, when that is a whitespace.  The
    strings are UTF-8, in which no encoding is the beginning of another and
    none starts with a continuation byte (128 to 191): the bytes of a
    whitespace found at the front, or from some point to the end, are that
    character and not a piece of another one. *)
Fixpoint skip_one (cps : list N) (s : string) : option string :=
  match cps with
  | [] => None
  | cp :: cps' =>
      match drop_prefix (utf8 cp) s with
      | Some r => Some r
      | None => skip_one cps' s
      end
  end.

Definition skip_space : string -> option string := skip_one whitespace.

(** [str.lstrip()]: leading whitespace removed, one character at a time;
    [n] bounds the number of characters, the length of the string is
    enough. *)
Fixpoint lstrip_upto (n : nat) (s : string) : string :=
  match n with
  | O => s
  | S k =>
      match skip_space s with
      | Some r => lstrip_upto k r
      | None => s
      end
  end.

Definition lstrip (s : string) : string := lstrip_upto (String.length s) s.

(** [s] is made of whitespace only. *)
Definition isspace_all (s : string) : bool :=
  match lstrip s with
  | EmptyString => true
  | _ => false
  end.

(** [str.rstrip()]: the string up to the point from which only whitespace
    follows. *)
Fixpoint rstrip (s : string) : string :=
  match s with
  | EmptyString => EmptyString
  | String c s' => if isspace_all s then EmptyString else String c (rstrip s')
  end.

(** [str.strip()] with no argument: whitespace removed at both ends. *)
Definition strip (s : string) : string := rstrip (lstrip s).

(** Equality of two characters up to the case of a letter, and of two
    strings character by character: what the specification calls
    "case-insensitively equals". *)
Definition char_eq_nocase (a b : ascii) : bool :=
  Ascii.eqb a b
  || (is_upper a && Ascii.eqb (lower_char a) b)
  || (is_upper b && Ascii.eqb a (lower_char b)).

Fixpoint eq_nocase (s t : string) : bool :=
  match s, t with
  | EmptyString, EmptyString => true
  | String a s', String b t' => char_eq_nocase a b && eq_nocase s' t'
  | _, _ => false
  end.

(** Every byte. *)
Definition all_ascii : list ascii := map ascii_of_nat (seq 0 256).

(** The sixteen ways of writing [quit] in upper and lower case. *)
Definition quit_spellings : list string :=
  [ "quit"; "quiT"; "quIt"; "quIT"; "qUit"; "qUiT"; "qUIt"; "qUIT";
    "Quit"; "QuiT"; "QuIt"; "QuIT"; "QUit"; "QUiT"; "QUIt"; "QUIT" ].

(** The capital of a small letter. *)
Definition upper_char (c : ascii) : ascii :=
  ascii_of_N (N_of_ascii c - 32).

(** [sub in s] *)
Definition occurs_in (sub s : string) : Prop :=
  exists p q, s = p +:+ sub +:+ q.

End Str.

(** ** Python values and exceptions *)

(** The values the script handles at its own level are strings and [None]
    ([os.getenv] and the [content] of a chat message are [Optional[str]]). *)
Inductive pyval :=
| PyNone
| PyStr (s : string).

(** [str(v)], as [print] and f-strings apply it. *)
Definition py_str (v : pyval) : string :=
  match v with
  | PyNone => "None"
  | PyStr s => s
  end.

Definition is_str (v : pyval) : bool :=
  match v with
  | PyStr _ => true
  | PyNone => false
  end.

Definition of_option (o : option string) : pyval :=
  match o with
  | Some s => PyStr s
  | None => PyNone
  end.

(** The line feed written [\n] in the source. *)
Definition nl : string := String (ascii_of_N 10) EmptyString.

(** Exception classes: the ones the script names or meets at its own level,
    and [LibraryError n] for any other class a library raises.  All of them
    derive from [Exception]; conditions outside [Exception]
    ([KeyboardInterrupt], [SystemExit]) are delivered by the interpreter to
    the main thread and are not part of this model. *)
Inductive exc_class :=
| Exception
| LookupError
| KeyError
| IndexError
| EOFError
| WikipediaException
| DisambiguationError
| PageError
| LibraryError (name : string).

#[global] Instance exc_class_eq_dec : EqDecision exc_class.
Proof. solve_decision. Defined.

(** The direct base class ([None] for [Exception], the root here). *)
Definition base (c : exc_class) : option exc_class :=
  match c with
  | Exception => None
  | LookupError => Some Exception
  | KeyError => Some LookupError
  | IndexError => Some LookupError
  | EOFError => Some Exception
  | WikipediaException => Some Exception
  | DisambiguationError => Some WikipediaException
  | PageError => Some WikipediaException
  | LibraryError _ => Some Exception
  end.

(** [issubclass c d], by walking up from [c]; the hierarchy has depth 3. *)
Fixpoint issubclass_upto (n : nat) (c d : exc_class) : bool :=
  bool_decide (c = d) ||
  match n, base c with
  | S k, Some b => issubclass_upto k b d
  | _, _ => false
  end.

Definition issubclass : exc_class -> exc_class -> bool := issubclass_upto 3.

(** An exception instance: its class and its rendering by [str(e)]. *)
Record exn := { exc_type : exc_class; exc_str : string }.

Definition isinstance (e : exn) (c : exc_class) : bool :=
  issubclass (exc_type e) c.

Inductive result (A : Type) :=
| Ok (a : A)
| Raise (e : exn).
Arguments Ok {A} a.
Arguments Raise {A} e.

(** [os.environ[k]] on a missing key raises [KeyError(k)], which [str]
    renders as the key between single quotes. *)
Definition key_error (k : string) : exn :=
  {| exc_type := KeyError; exc_str := "'" +:+ k +:+ "'" |}.

Definition index_error : exn :=
  {| exc_type := IndexError; exc_str := "list index out of range" |}.

Definition eof_error : exn :=
  {| exc_type := EOFError; exc_str := "EOF when reading a line" |}.

(** ** Dates *)

Module Datetime.

(** A naive [datetime.datetime], as [datetime.now()] returns it. *)
Record datetime := {
  year : N; month : N; day : N;
  hour : N; minute : N; second : N; microsecond : N
}.

Definition is_leap (y : N) : bool :=
  ((y mod 4 =? 0) && (negb (y mod 100 =? 0) || (y mod 400 =? 0)))%N.

Definition days_in_month (y m : N) : N :=
  if (m =? 2)%N then (if is_leap y then 29 else 28)%N
  else if ((m =? 4) || (m =? 6) || (m =? 9) || (m =? 11))%N then 30%N
  else 31%N.

(** The ranges the [datetime] constructor enforces. *)
Definition valid (d : datetime) : bool :=
  ((1 <=? year d) && (year d <=? 9999)
   && (1 <=? month d) && (month d <=? 12)
   && (1 <=? day d) && (day d <=? days_in_month (year d) (month d))
   && (hour d <? 24) && (minute d <? 60) && (second d <? 60)
   && (microsecond d <? 1000000))%N.

Definition digit (n : N) : ascii := ascii_of_N (48 + n mod 10).

(** [n] in decimal on [width] digits, zero padded, in front of [acc]
    ([%04d], [%02d], [%06d] on values that fit the width). *)
Fixpoint zpad (width : nat) (n : N) (acc : string) : string :=
  match width with
  | O => acc
  | S k => zpad k (n / 10) (String (digit n) acc)
  end.

(** [datetime.isoformat()] with the default separator [T]; the fraction
    is printed only when the microsecond is not zero. *)
Definition isoformat (d : datetime) : string :=
  zpad 4 (year d) (String "-" (zpad 2 (month d) (String "-" (zpad 2 (day d)
    (String "T" (zpad 2 (hour d) (String ":" (zpad 2 (minute d)
      (String ":" (zpad 2 (second d)
        (if (microsecond d =? 0)%N then EmptyString
         else String "." (zpad 6 (microsecond d) EmptyString)))))))))))).

(** A reader for the same ISO-8601 profile,
    [YYYY-MM-DDTHH:MM:SS] with an optional [.ffffff]. *)
Definition digit_val (c : ascii) : option N :=
  let n := N_of_ascii c in
  if ((48 <=? n) && (n <=? 57))%N then Some (n - 48)%N else None.

Fixpoint read_digits (width : nat) (acc : N) (s : string)
  : option (N * string) :=
  match width with
  | O => Some (acc, s)
  | S k =>
      match s with
      | String c s' =>
          match digit_val c with
          | Some v => read_digits k (acc * 10 + v) s'
          | None => None
          end
      | EmptyString => None
      end
  end.

Definition expect (c : ascii) (s : string) : option string :=
  match s with
  | String c' s' => if Ascii.eqb c c' then Some s' else None
  | EmptyString => None
  end.

Definition fromisoformat (s : string) : option datetime :=
  '(y, s) ← read_digits 4 0 s; s ← expect "-" s;
  '(mo, s) ← read_digits 2 0 s; s ← expect "-" s;
  '(d, s) ← read_digits 2 0 s; s ← expect "T" s;
  '(h, s) ← read_digits 2 0 s; s ← expect ":" s;
  '(mi, s) ← read_digits 2 0 s; s ← expect ":" s;
  '(se, s) ← read_digits 2 0 s;
  '(us, s) ← match s with
             | EmptyString => Some (0%N, s)
             | _ => s ← expect "." s; read_digits 6 0 s
             end;
  let d := {| year := y; month := mo; day := d; hour := h;
              minute := mi; second := se; microsecond := us |} in
  match s with
  | EmptyString => if valid d then Some d else None
  | _ => None
  end.

End Datetime.

(** ** The services the script calls *)

(** Keyword arguments of [openai.AzureOpenAI(...)] (lines 49-53). *)
Record client_args := {
  azure_endpoint : pyval;
  api_key : pyval;
  client_api_version : string
}.

(** One entry of [extra_body["data_sources"]] (lines 60-69). *)
Record data_source := {
  ds_type : string;
  ds_endpoint : string;
  ds_index_name : string;
  ds_auth_type : string;
  ds_key : string
}.

(** Keyword arguments of [client.chat.completions.create(...)]
    (lines 55-73). *)
Record request := {
  model : pyval;
  messages : list (gmap string string);
  data_sources : list data_source
}.

(** The part of a chat completion the script looks at (line 75). *)
Record chat_message := { content : pyval }.
Record choice := { message : chat_message }.
Record completion := { choices : list choice }.

(** The entries of the [tools] list (lines 81-97). *)
Inductive tool_id := DateTime | Wikipedia | KnowledgeBase.

(** What the agent executor does with one input, as seen from the script:
    it writes its verbose log, calls tools of the list with inputs of its
    choosing and goes on according to what they return, and at last returns
    its result dictionary or raises.  [E] is the state of the outside
    world. *)
Inductive agent_run (E : Type) :=
| Finish (r : E -> result (gmap string pyval) * E)
| Verbose (s : string) (k : agent_run E)
| UseTool (t : tool_id) (tool_input : string) (k : pyval -> agent_run E).
Arguments Finish {E} r.
Arguments Verbose {E} s k.
Arguments UseTool {E} t tool_input k.

(** The oracles.  [Ext] is the state of everything outside the process
    (the network services, the model, the conversation memory kept by the
    executor, the clock, the file system). *)
Record Externals := {
  Ext : Type;
  (** the bindings of the [.env] file that [load_dotenv] finds *)
  dotenv_values : Ext -> gmap string string;
  (** [datetime.now()] *)
  now : Ext -> Datetime.datetime * Ext;
  now_valid : forall x, Datetime.valid (fst (now x)) = true;
  (** [wikipedia.summary(query)] *)
  wikipedia_summary : string -> Ext -> result string * Ext;
  (** [openai.AzureOpenAI(...)] and the client object it returns, as far as
      the arguments the script passes decide it; the variables the
      constructor may read in the environment on its own are not followed *)
  Client : Type;
  AzureOpenAI : client_args -> Ext -> result Client * Ext;
  (** [client.chat.completions.create(...)] *)
  chat_completions_create : Client -> request -> Ext -> result completion * Ext;
  (** lines 102-139: the prompt pulled from the hub, the model handle, the
      memory, the agent and the executor *)
  assemble : Ext -> result unit * Ext;
  (** [agent_executor.ainvoke(d)], awaited *)
  agent_executor : gmap string pyval -> Ext -> agent_run Ext
}.

(** ** The script *)

(** The module-level names bound by lines 26-29. *)
Record Globals := {
  openai_api_key : pyval;
  deployment : pyval;
  endpoint : pyval;
  api_version : string
}.

(** What the process does that can be observed from outside, in order. *)
Inductive event :=
| EvLoadDotenv
| EvGetenv (k : string)
| EvStdout (s : string)
| EvStdin (l : string)
| EvEOF
| EvClock
| EvWikipedia (q : string)
| EvClient (a : client_args)
| EvChat (r : request)
| EvAssemble
| EvInvoke (d : gmap string pyval)
| EvVerbose (s : string).

Section Script.

Context (X : Externals).

Record World := {
  environ : gmap string string;   (* os.environ *)
  globals : Globals;              (* the module's configuration names *)
  ext : Ext X;
  trace : list event
}.

(** Computations of the script: state passing over [World], with
    exceptions. *)
Definition M (A : Type) : Type := World -> result A * World.

Definition ret {A} (a : A) : M A := fun w => (Ok a, w).

Definition raise {A} (e : exn) : M A := fun w => (Raise e, w).

Definition bind {A B} (m : M A) (k : A -> M B) : M B :=
  fun w =>
    match m w with
    | (Ok a, w') => k a w'
    | (Raise e, w') => (Raise e, w')
    end.

Notation "x <- m ;; k" := (bind m (fun x => k))
  (at level 100, m at next level, right associativity).
Notation "m ;; k" := (bind m (fun _ => k))
  (at level 100, right associativity).

(** [try: body except C1 as e: h1 except C2 as e: h2 ...]: the first
    clause whose class the exception is an instance of handles it; with
    no such clause the exception goes on. *)
Definition handler (A : Type) : Type := (exc_class * (exn -> M A))%type.

Fixpoint dispatch {A} (hs : list (handler A)) (e : exn) : M A :=
  match hs with
  | [] => raise e
  | (c, h) :: hs' => if isinstance e c then h e else dispatch hs' e
  end.

Definition try_except {A} (body : M A) (hs : list (handler A)) : M A :=
  fun w =>
    match body w with
    | (Ok a, w') => (Ok a, w')
    | (Raise e, w') => dispatch hs e w'
    end.

(** *** Primitive steps *)

Definition emit (ev : event) : M unit :=
  fun w => (Ok tt, {| environ := environ w; globals := globals w;
                      ext := ext w; trace := trace w ++ [ev] |}).

(** A call to a service: its oracle runs on the outside state. *)
Definition call {A} (f : Ext X -> result A * Ext X) : M A :=
  fun w =>
    let (r, x) := f (ext w) in
    (r, {| environ := environ w; globals := globals w;
           ext := x; trace := trace w |}).

Definition get_globals : M Globals := fun w => (Ok (globals w), w).

Definition set_globals (g : Globals) : M unit :=
  fun w => (Ok tt, {| environ := environ w; globals := g;
                      ext := ext w; trace := trace w |}).

(** [load_dotenv()] with its defaults: a variable of the file is set in
    [os.environ] unless the environment already has it. *)
Definition load_dotenv : M unit :=
  fun w => (Ok tt, {| environ := environ w ∪ dotenv_values X (ext w);
                      globals := globals w; ext := ext w;
                      trace := trace w ++ [EvLoadDotenv] |}).

(** [os.getenv(k)]: [None] when [k] is not set. *)
Definition os_getenv (k : string) : M pyval :=
  emit (EvGetenv k) ;; fun w => (Ok (of_option (environ w !! k)), w).

(** [os.environ[k]]: [KeyError] when [k] is not set. *)
Definition os_environ_getitem (k : string) : M string :=
  emit (EvGetenv k) ;;
  fun w => match environ w !! k with
           | Some v => (Ok v, w)
           | None => (Raise (key_error k), w)
           end.

(** [l[0]] on a list. *)
Definition first {A} (l : list A) : M A :=
  match l with
  | a :: _ => ret a
  | [] => raise index_error
  end.

(** [d[k]] on a dictionary. *)
Definition dict_getitem (d : gmap string pyval) (k : string) : M pyval :=
  match d !! k with
  | Some v => ret v
  | None => raise (key_error k)
  end.

(** [print(a, b, ...)]: the arguments rendered by [str], separated by a
    space, followed by a line feed. *)
Fixpoint join_space (l : list string) : string :=
  match l with
  | [] => EmptyString
  | [s] => s
  | s :: l' => s +:+ " " +:+ join_space l'
  end.

Definition print (args : list pyval) : M unit :=
  emit (EvStdout (join_space (map py_str args) +:+ nl)).

(** *** Step 1: load environment variables (lines 25-29) *)

Definition load_environment : M unit :=
  load_dotenv ;;
  k <- os_getenv "AZURE_OAI_KEY" ;;
  g <- get_globals ;;
  set_globals {| openai_api_key := k; deployment := deployment g;
                 endpoint := endpoint g; api_version := api_version g |} ;;
  d <- os_getenv "AZURE_OAI_DEPLOYMENT" ;;
  g <- get_globals ;;
  set_globals {| openai_api_key := openai_api_key g; deployment := d;
                 endpoint := endpoint g; api_version := api_version g |} ;;
  e <- os_getenv "AZURE_OAI_ENDPOINT" ;;
  g <- get_globals ;;
  set_globals {| openai_api_key := openai_api_key g;
                 deployment := deployment g;
                 endpoint := e; api_version := api_version g |} ;;
  g <- get_globals ;;
  set_globals {| openai_api_key := openai_api_key g;
                 deployment := deployment g;
                 endpoint := endpoint g; api_version := "2024-02-01" |}.

(** *** Step 2: the tools (lines 34-78) *)

(** [get_current_datetime], declared with [*args, **kwargs]: it takes any
    arguments and ignores them. *)
Definition get_current_datetime
    (args : list pyval) (kwargs : gmap string pyval) : M pyval :=
  emit EvClock ;;
  d <- call (fun x => let (d, x') := now X x in (Ok d, x')) ;;
  ret (PyStr (Datetime.isoformat d)).

Definition get_wikipedia_summary (query : string) : M pyval :=
  try_except
    (emit (EvWikipedia query) ;;
     s <- call (wikipedia_summary X query) ;;
     ret (PyStr s))
    [ (DisambiguationError,
        fun e => ret (PyStr ("Disambiguation error: " +:+ exc_str e)));
      (PageError, fun _ => ret (PyStr "Page not found."));
      (Exception, fun e => ret (PyStr (exc_str e))) ].

(** The arguments of lines 49-53 and of lines 55-73, from the
    configuration names [g], the query and the three search settings. *)
Definition client_arguments (g : Globals) : client_args :=
  {| azure_endpoint := endpoint g;
     api_key := openai_api_key g;
     client_api_version := api_version g |}.

Definition search_request (g : Globals) (query se si sk : string) : request :=
  {| model := deployment g;
     messages := [ {[ "role" := "user" ]} ∪ {[ "content" := query ]} ];
     data_sources :=
       [ {| ds_type := "azure_search";
            ds_endpoint := se;
            ds_index_name := si;
            ds_auth_type := "api_key";
            ds_key := sk |} ] |}.

(** The [try] block of [search_company_docs] (lines 49-75). *)
Definition search_attempt (query : string) : M pyval :=
  g <- get_globals ;;
  emit (EvClient (client_arguments g)) ;;
  client <- call (AzureOpenAI X (client_arguments g)) ;;
  g <- get_globals ;;
  se <- os_environ_getitem "AZURE_SEARCH_ENDPOINT" ;;
  si <- os_environ_getitem "AZURE_SEARCH_INDEX" ;;
  sk <- os_environ_getitem "AZURE_SEARCH_KEY" ;;
  emit (EvChat (search_request g query se si sk)) ;;
  c <- call (chat_completions_create X client (search_request g query se si sk)) ;;
  ch <- first (choices c) ;;
  ret (content (message ch)).

Definition search_company_docs (query : string) : M pyval :=
  try_except (search_attempt query)
    [ (Exception,
        fun e => ret (PyStr ("Search error: " +:+ exc_str e))) ].

(** The [tools] list (lines 81-97). *)
Record Tool := {
  name : string;
  func : string -> M pyval;
  description : string
}.

Definition tool (t : tool_id) : Tool :=
  match t with
  | DateTime =>
      {| name := "Date Time";
         func := fun a => get_current_datetime [PyStr a] ∅;
         description := "Useful for checking the current date and time." |}
  | Wikipedia =>
      {| name := "Wikipedia";
         func := get_wikipedia_summary;
         description := "Useful for getting Wikipedia summaries." |}
  | KnowledgeBase =>
      {| name := "Company Knowledge Base";
         func := search_company_docs;
         description := "Use this to search internal documents and get grounded answers from the knowledge base." |}
  end.

Definition tools : list Tool := map tool [DateTime; Wikipedia; KnowledgeBase].

(** *** Steps 3-5: the agent executor (lines 102-139) *)

(** The executor at work: the tools it calls are the functions above, run
    in this process. *)
Fixpoint run_agent (p : agent_run (Ext X)) : M (gmap string pyval) :=
  match p with
  | Finish r => call r
  | Verbose s k => emit (EvVerbose s) ;; run_agent k
  | UseTool t a k => obs <- func (tool t) a ;; run_agent (k obs)
  end.

(** The same run up to the executor's last step, which it returns without
    taking it. *)
Fixpoint last_step (p : agent_run (Ext X))
  : M (Ext X -> result (gmap string pyval) * Ext X) :=
  match p with
  | Finish r => ret r
  | Verbose s k => emit (EvVerbose s) ;; last_step k
  | UseTool t a k => obs <- func (tool t) a ;; last_step (k obs)
  end.

(** [await agent_executor.ainvoke(d)] *)
Definition ainvoke (d : gmap string pyval) : M (gmap string pyval) :=
  emit (EvInvoke d) ;;
  fun w => run_agent (agent_executor X d (ext w)) w.

(** *** Step 6: the main loop (lines 144-155) *)

Definition banner : string :=
  "🤖 ReAct Agent with RAG + Tools + Memory (LangChain + Azure OpenAI)".

Definition ask : string := nl +:+ "Ask something (or 'quit'): ".

Definition response_header : string := nl +:+ "📣 Response:" +:+ nl.

(** The [while True] loop of [main], over the lines standard input still
    holds; [input] writes its prompt, then takes the next line, or raises
    [EOFError] when there is none.  The loop returns the lines it has not
    read. *)
Fixpoint main_loop (stdin : list string) : M (list string) :=
  emit (EvStdout ask) ;;
  match stdin with
  | [] => emit EvEOF ;; raise eof_error
  | query :: rest =>
      emit (EvStdin query) ;;
      if String.eqb (Str.lower query) "quit" then ret rest
      else
        response <- ainvoke {[ "input" := PyStr query ]} ;;
        out <- dict_getitem response "output" ;;
        print [PyStr response_header; out] ;;
        main_loop rest
  end.

Definition main (stdin : list string) : M (list string) :=
  print [PyStr banner] ;;
  main_loop stdin.

(** The whole module run as a program: steps 1 to 5 at import, then
    [asyncio.run(main())]. *)
Definition startup : M unit :=
  load_environment ;;
  emit EvAssemble ;;
  call (assemble X).

Definition script (stdin : list string) : M (list string) :=
  startup ;;
  main stdin.

(** The exit status of the interpreter: 0 when the program ends, 1 when an
    exception reaches the top level. *)
Definition exit_status {A} (r : result A) : N :=
  match r with
  | Ok _ => 0
  | Raise _ => 1
  end.

(** *** Reading a trace *)

(** The dictionaries passed to the executor, in order. *)
Fixpoint invocations (t : list event) : list (gmap string pyval) :=
  match t with
  | [] => []
  | EvInvoke d :: t' => d :: invocations t'
  | _ :: t' => invocations t'
  end.

(** What the script itself wrote to standard output, in order. *)
Fixpoint written (t : list event) : list string :=
  match t with
  | [] => []
  | EvStdout s :: t' => s :: written t'
  | _ :: t' => written t'
  end.

(** The lines taken from standard input, in order. *)
Fixpoint lines_read (t : list event) : list string :=
  match t with
  | [] => []
  | EvStdin l :: t' => l :: lines_read t'
  | _ :: t' => lines_read t'
  end.

(** The names looked up in the environment, in order. *)
Fixpoint names_read (t : list event) : list string :=
  match t with
  | [] => []
  | EvGetenv k :: t' => k :: names_read t'
  | _ :: t' => names_read t'
  end.

(** The events a computation adds to the trace when run from [w]. *)
(** The requests sent to the chat-completion service, in order. *)
Fixpoint requests (t : list event) : list request :=
  match t with
  | [] => []
  | EvChat r :: t' => r :: requests t'
  | _ :: t' => requests t'
  end.

(** The arguments the chat-completion clients were built with, in order. *)
Fixpoint clients (t : list event) : list client_args :=
  match t with
  | [] => []
  | EvClient a :: t' => a :: clients t'
  | _ :: t' => clients t'
  end.

(** The number of times standard input was found at its end. *)
Fixpoint eofs (t : list event) : nat :=
  match t with
  | [] => 0
  | EvEOF :: t' => S (eofs t')
  | _ :: t' => eofs t'
  end.

(** The number of prompts written. *)
Definition prompts (t : list event) : nat :=
  length (List.filter (String.eqb ask) (written t)).

(** The events of the tools and of the executor at work: calls to the
    services, lookups in the environment, the executor's own log. *)
Definition is_service_event (ev : event) : bool :=
  match ev with
  | EvGetenv _ | EvClock | EvWikipedia _ | EvClient _ | EvChat _
  | EvVerbose _ => true
  | _ => false
  end.

Definition service_events (evs : list event) : Prop :=
  forallb is_service_event evs = true.

(** The world that steps 1 to 5 leave, [x] being what the assembly of the
    agent made of the outside: the environment with the [.env] bindings
    added, the configuration names bound, five events more. *)
Definition after_startup (w : World) (x : Ext X) : World :=
  let env := environ w ∪ dotenv_values X (ext w) in
  {| environ := env;
     globals :=
       {| openai_api_key := of_option (env !! "AZURE_OAI_KEY");
          deployment := of_option (env !! "AZURE_OAI_DEPLOYMENT");
          endpoint := of_option (env !! "AZURE_OAI_ENDPOINT");
          api_version := "2024-02-01" |};
     ext := x;
     trace := trace w ++ [EvLoadDotenv; EvGetenv "AZURE_OAI_KEY";
                          EvGetenv "AZURE_OAI_DEPLOYMENT";
                          EvGetenv "AZURE_OAI_ENDPOINT"; EvAssemble] |}.

Definition events_of {A} (m : M A) (w : World) : list event :=
  drop (length (trace w)) (trace (snd (m w))).

(** The search settings, in the order lines 63-67 look them up. *)
Definition search_settings : list string :=
  ["AZURE_SEARCH_ENDPOINT"; "AZURE_SEARCH_INDEX"; "AZURE_SEARCH_KEY"].

(** The names among [ks] that get looked up by successive [os.environ[k]]
    in the environment [env]: all up to the first that is not set. *)
Fixpoint looked_up (env : gmap string string) (ks : list string)
  : list string :=
  match ks with
  | [] => []
  | k :: ks' =>
      k :: match env !! k with
           | Some _ => looked_up env ks'
           | None => []
           end
  end.

(** The dictionary [main] passes to the executor for a line. *)
Definition input_of (query : string) : gmap string pyval :=
  {[ "input" := PyStr query ]}.

Definition is_quit (query : string) : bool :=
  String.eqb (Str.lower query) "quit".

(** Events of a tool at work: no executor call, nothing written by the
    script, nothing read from standard input. *)
Definition quiet (evs : list event) : Prop :=
  invocations evs = [] /\ written evs = [] /\ lines_read evs = [].

(** [m] leaves the environment and the configuration names alone and only
    adds to the trace, events satisfying [P]. *)
Definition frames {A} (P : list event -> Prop) (m : M A) : Prop :=
  forall w,
    environ (snd (m w)) = environ w /\
    globals (snd (m w)) = globals w /\
    exists evs, trace (snd (m w)) = trace w ++ evs /\ P evs.

(** [evs] are the events of a run of the loop over [stdin] that ended with
    [r], and [pre] the lines the executor was given: the run starts with a
    prompt; the lines of [pre] are not [quit]; and either a [quit] line
    was read after them and the rest is returned, or the run ended on an
    exception, [EOFError] when the input was used up. *)
Definition run_of_loop (stdin : list string) (r : result (list string))
    (evs : list event) (pre : list string) : Prop :=
  (exists tl, evs = EvStdout ask :: tl) /\
  Forall (fun l => is_quit l = false) pre /\
  invocations evs = map input_of pre /\
  prompts evs = length (lines_read evs) + eofs evs /\
  ((exists q rest,
      stdin = pre ++ q :: rest /\ is_quit q = true /\
      r = Ok rest /\ lines_read evs = pre ++ [q] /\ eofs evs = 0) \/
   (exists e,
      r = Raise e /\ lines_read evs = pre /\ pre `prefix_of` stdin /\
      (eofs evs = 0 \/ (eofs evs = 1 /\ pre = stdin /\ e = eof_error)))).

(** *** The loop as a state machine *)

(** The world once [input] has written its prompt and taken [query]. *)
Definition after_input (query : string) (w : World) : World :=
  snd ((emit (EvStdout ask) ;; emit (EvStdin query)) w).

(** The world once the loop has printed the value [out]. *)
Definition after_print (out : pyval) (w : World) : World :=
  snd (print [PyStr response_header; out] w).

(** [awaiting stdin w stdin' w']: the loop, awaiting input in world [w]
    with [stdin] to come, is awaiting input again in world [w'] with
    [stdin'] to come, after some turns that all went through. *)
Inductive awaiting : list string -> World -> list string -> World -> Prop :=
| awaiting_here stdin w : awaiting stdin w stdin w
| awaiting_turn query rest w response w2 out stdin' w' :
    String.eqb (Str.lower query) "quit" = false ->
    ainvoke {[ "input" := PyStr query ]} (after_input query w)
      = (Ok response, w2) ->
    response !! "output" = Some out ->
    awaiting rest (after_print out w2) stdin' w' ->
    awaiting (query :: rest) w stdin' w'.

End Script.

Arguments ret {X A} a.
Arguments raise {X A} e.
Arguments bind {X A B} m k.
Arguments events_of {X A} m w.
Arguments frames X {A} P m.
Arguments exit_status {A} r.

(** ** A concrete outside world, to run the script on *)

Module Demo.

Definition noon : Datetime.datetime :=
  {| Datetime.year := 2024; Datetime.month := 2; Datetime.day := 29;
     Datetime.hour := 12; Datetime.minute := 0; Datetime.second := 7;
     Datetime.microsecond := 1500 |}.

Definition summary (query : string) (x : nat) : result string * nat :=
  if String.eqb query "Mercury" then
    (Raise {| exc_type := DisambiguationError;
              exc_str := "Mercury may refer to: planet, element" |}, S x)
  else if String.eqb query "xyzzy" then
    (Raise {| exc_type := PageError; exc_str := "no match" |}, S x)
  else if String.eqb query "offline" then
    (Raise {| exc_type := LibraryError "ConnectionError";
              exc_str := "connection refused" |}, S x)
  else (Ok ("About " +:+ query), S x).

(** The model answers every question but [empty], for which the content
    of its only choice is [None]. *)
Definition asked (r : request) : string :=
  match messages r with
  | m :: _ => default EmptyString (m !! "content")
  | [] => EmptyString
  end.

Definition create (c : client_args) (r : request) (x : nat)
  : result completion * nat :=
  let answer := if String.eqb (asked r) "empty" then PyNone
                else PyStr "grounded answer" in
  (Ok {| choices := [ {| message := {| content := answer |} |} ] |}, S x).

(** The executor answers with its input and an [output]: the clock for
    [time], read through the date tool; an exception for [crash]; an echo
    for any other line. *)
Definition answer (q : string) (out : pyval) : gmap string pyval :=
  {[ "input" := PyStr q ]} ∪ {[ "output" := out ]}.

Definition executor (d : gmap string pyval) (x : nat) : agent_run nat :=
  match d !! "input" with
  | Some (PyStr q) =>
      if String.eqb q "crash" then
        Finish (fun x => (Raise {| exc_type := LibraryError "APIError";
                                   exc_str := "rate limit" |}, S x))
      else if String.eqb q "time" then
        Verbose "Action: Date Time"
          (UseTool DateTime q (fun obs =>
             Finish (fun x => (Ok (answer q obs), S x))))
      else Finish (fun x => (Ok (answer q (PyStr ("echo " +:+ q))), S x))
  | _ => Finish (fun x => (Ok ∅, x))
  end.

Definition services : Externals :=
  {| Ext := nat;
     dotenv_values := fun _ => {[ "AZURE_OAI_KEY" := "secret" ]};
     now := fun x => (noon, S x);
     now_valid := fun _ => eq_refl;
     wikipedia_summary := summary;
     Client := client_args;
     AzureOpenAI := fun a x => (Ok a, x);
     chat_completions_create := create;
     assemble := fun x => (Ok tt, x);
     agent_executor := executor |}.

Definition unset : Globals :=
  {| openai_api_key := PyNone; deployment := PyNone;
     endpoint := PyNone; api_version := EmptyString |}.

(** A process about to run the script in the environment [env]. *)
Definition start (env : gmap string string) : World services :=
  Build_World services env unset 0 [].

(** An environment with the model settings but none of the search
    settings. *)
Definition bare : World services :=
  start ({[ "AZURE_OAI_ENDPOINT" := "https://oai.example/" ]}
         ∪ {[ "AZURE_OAI_DEPLOYMENT" := "gpt-4o" ]}).

(** The same with the search index and key set, the search endpoint not. *)
Definition no_search_endpoint : World services :=
  start ({[ "AZURE_SEARCH_INDEX" := "margies-index" ]}
         ∪ {[ "AZURE_SEARCH_KEY" := "admin-key" ]}
         ∪ environ services bare).

(** The same with the three search settings. *)
Definition full : World services :=
  start ({[ "AZURE_SEARCH_ENDPOINT" := "https://search.example/" ]}
         ∪ environ services no_search_endpoint).

(** The process once steps 1 to 5 have run. *)
Definition started (w : World services) : World services :=
  snd (startup services w).

(** The process at its first prompt. *)
Definition greeted (w : World services) : World services :=
  snd (print services [PyStr banner] (started w)).

(** What the executor answers to [time] at the first prompt: its result
    dictionary and the world it leaves. *)
Definition answer_time (w : World services)
  : gmap string pyval * World services :=
  match ainvoke services (input_of "time")
          (after_input services "time" (greeted w)) with
  | (Ok response, w2) => (response, w2)
  | (Raise _, w2) => (∅, w2)
  end.

(** The process at its second prompt, after the line [time]. *)
Definition after_time (w : World services) : World services :=
  after_print services (PyStr "2024-02-29T12:00:07.001500")
    (snd (answer_time w)).

(** The six settings the specification lists for the loader. *)
Definition listed_settings : list string :=
  ["AZURE_OAI_ENDPOINT"; "AZURE_OAI_KEY"; "AZURE_OAI_DEPLOYMENT";
   "AZURE_SEARCH_ENDPOINT"; "AZURE_SEARCH_KEY"; "AZURE_SEARCH_INDEX"].

End Demo.

(** ** A second outside world, where the services answer poorly *)

Module Trial.

(** The executor returns the dictionary it was given: a result with no
    [output] in it. *)
Definition executor (d : gmap string pyval) (x : nat) : agent_run nat :=
  Finish (fun x => (Ok d, S x)).

(** The chat service returns an answer with no choice. *)
Definition create (c : client_args) (r : request) (x : nat)
  : result completion * nat :=
  (Ok {| choices := [] |}, S x).

Definition services : Externals :=
  {| Ext := nat;
     dotenv_values := fun _ => ∅;
     now := fun x => (Demo.noon, S x);
     now_valid := fun _ => eq_refl;
     wikipedia_summary := Demo.summary;
     Client := client_args;
     AzureOpenAI := fun a x => (Ok a, x);
     chat_completions_create := create;
     assemble := fun x => (Ok tt, x);
     agent_executor := executor |}.

(** A process about to run the script with the six settings in its
    environment. *)
Definition full : World services :=
  Build_World services (environ Demo.services Demo.full) Demo.unset 0 [].

Definition started : World services := snd (startup services full).

Definition greeted : World services :=
  snd (print services [PyStr banner] started).

(** The process of [Demo] once started, when its environment has since
    lost every variable. *)
Definition emptied : World Demo.services :=
  Build_World Demo.services ∅
    (globals Demo.services (Demo.started Demo.full)) 7 [].

End Trial.

(** * Properties *)

(** ** Text *)

Module StrFacts.
Import Str.

(** [String.append] does not simplify under stdpp; its two equations. *)
Lemma app_nil_l t : EmptyString +:+ t = t.
Proof. reflexivity. Qed.

Lemma app_cons c s t : String c s +:+ t = String c (s +:+ t).
Proof. reflexivity. Qed.

Lemma app_length s t :
  String.length (s +:+ t) = String.length s + String.length t.
Proof.
  induction s as [|c s IH]; [reflexivity|].
  rewrite app_cons; simpl; congruence.
Qed.

Lemma app_app s t u : (s +:+ t) +:+ u = s +:+ t +:+ u.
Proof.
  induction s as [|c s IH]; [reflexivity|].
  rewrite !app_cons; congruence.
Qed.

(** *** Facts about [lower] *)

Lemma lower_length s : String.length (lower s) = String.length s.
Proof. induction s as [|c s IH]; simpl; congruence. Qed.

Lemma lower_app s t : lower (s +:+ t) = lower s +:+ lower t.
Proof.
  induction s as [|c s IH]; [reflexivity|].
  rewrite app_cons; simpl; rewrite app_cons; congruence.
Qed.

Lemma in_all_ascii a : In a all_ascii.
Proof.
  rewrite <- (ascii_nat_embedding a). unfold all_ascii.
  apply in_map, in_seq. pose proof (nat_ascii_bounded a). lia.
Qed.

(** The two comparisons agree on each of the 256 x 256 pairs of bytes. *)
Lemma char_eq_nocase_table :
  forallb (fun a =>
    forallb (fun b =>
      Bool.eqb (char_eq_nocase a b)
               (Ascii.eqb (lower_char a) (lower_char b)))
      all_ascii) all_ascii = true.
Proof. vm_compute. reflexivity. Qed.

Lemma char_eq_nocase_spec a b :
  char_eq_nocase a b = true <-> lower_char a = lower_char b.
Proof.
  pose proof char_eq_nocase_table as H.
  rewrite List.forallb_forall in H. specialize (H a (in_all_ascii a)).
  rewrite List.forallb_forall in H. specialize (H b (in_all_ascii b)).
  apply Bool.eqb_prop in H. rewrite H. apply Ascii.eqb_eq.
Qed.

Lemma eq_nocase_spec s t : eq_nocase s t = true <-> lower s = lower t.
Proof.
  revert t; induction s as [|a s IH]; intros [|b t]; simpl;
    try (split; congruence).
  rewrite andb_true_iff, char_eq_nocase_spec, IH.
  split; [intros [-> ->]; reflexivity | intros H; injection H; auto].
Qed.

(** *** Facts about [strip] *)

Lemma drop_prefix_spec p : forall s r,
  drop_prefix p s = Some r -> s = p +:+ r.
Proof.
  induction p as [|a p IH]; intros s r; [intros [= <-]; reflexivity|].
  destruct s as [|b s]; simpl; [discriminate|].
  destruct (Ascii.eqb a b) eqn:E; [|discriminate].
  apply Ascii.eqb_eq in E. subst b. intros H. rewrite app_cons.
  f_equal. apply IH. exact H.
Qed.

Lemma utf8_not_empty cp : utf8 cp <> EmptyString.
Proof. unfold utf8. destruct (N.ltb cp 128), (N.ltb cp 2048); discriminate. Qed.

(** Skipping a whitespace takes a character off the front. *)
Lemma skip_one_spec cps : forall s r,
  skip_one cps s = Some r ->
  exists p, s = p +:+ r /\ String.length r < String.length s.
Proof.
  induction cps as [|cp cps IH]; intros s r; simpl; [discriminate|].
  destruct (drop_prefix (utf8 cp) s) as [r'|] eqn:E; [|apply IH].
  intros [= <-]. apply drop_prefix_spec in E. exists (utf8 cp).
  split; [exact E|]. rewrite E, app_length.
  pose proof (utf8_not_empty cp). destruct (utf8 cp); [congruence|simpl; lia].
Qed.

Lemma lstrip_upto_suffix n : forall s, exists p, s = p +:+ lstrip_upto n s.
Proof.
  induction n as [|n IH]; intros s; simpl.
  - exists EmptyString; reflexivity.
  - destruct (skip_space s) as [r|] eqn:E.
    + apply skip_one_spec in E as (p & -> & _).
      destruct (IH r) as [p' Hp']. exists (p +:+ p').
      rewrite app_app. congruence.
    + exists EmptyString; reflexivity.
Qed.

Lemma lstrip_suffix s : exists p, s = p +:+ lstrip s.
Proof. apply lstrip_upto_suffix. Qed.

(** The length of the string is bound enough: what [lstrip] returns does
    not start with a whitespace. *)
Lemma lstrip_upto_done n : forall s,
  String.length s <= n -> skip_space (lstrip_upto n s) = None.
Proof.
  induction n as [|n IH]; intros s Hn; simpl.
  - destruct s; [reflexivity | simpl in Hn; lia].
  - destruct (skip_space s) as [r|] eqn:E; [|exact E].
    apply IH. apply skip_one_spec in E as (_ & _ & Hlt). lia.
Qed.

Lemma lstrip_done s : skip_space (lstrip s) = None.
Proof. apply lstrip_upto_done. lia. Qed.

(** Each of the whitespace characters is skipped, whatever follows. *)
Lemma skip_space_whitespace cp s :
  In cp whitespace -> skip_space (utf8 cp +:+ s) = Some s.
Proof.
  unfold whitespace. cbn [In]. intros H.
  repeat (destruct H as [<-|H]; [reflexivity|]). destruct H.
Qed.

Lemma lstrip_upto_more n : forall m s,
  String.length s <= n -> String.length s <= m ->
  lstrip_upto n s = lstrip_upto m s.
Proof.
  induction n as [|n IH]; intros [|m] s Hn Hm; simpl; try reflexivity.
  - destruct s; [reflexivity | simpl in Hn; lia].
  - destruct s; [reflexivity | simpl in Hm; lia].
  - destruct (skip_space s) as [r|] eqn:E; [|reflexivity].
    apply skip_one_spec in E as (_ & _ & Hlt). apply IH; lia.
Qed.

(** [lstrip] takes off every leading whitespace and stops at the first
    character that is not one. *)
Lemma lstrip_whitespace cp s :
  In cp whitespace -> lstrip (utf8 cp +:+ s) = lstrip s.
Proof.
  intros Hcp. unfold lstrip.
  pose proof (utf8_not_empty cp) as Hne.
  destruct (String.length (utf8 cp +:+ s)) as [|n] eqn:El.
  - rewrite app_length in El. destruct (utf8 cp); [congruence|discriminate].
  - cbn [lstrip_upto]. rewrite (skip_space_whitespace cp s Hcp).
    apply lstrip_upto_more; [|lia].
    rewrite app_length in El. destruct (utf8 cp); [congruence|].
    simpl in El. lia.
Qed.

Lemma lstrip_stop s : skip_space s = None -> lstrip s = s.
Proof.
  intros H. unfold lstrip. destruct (String.length s); simpl; [reflexivity|].
  rewrite H. reflexivity.
Qed.

Lemma rstrip_prefix s : exists q, s = rstrip s +:+ q.
Proof.
  induction s as [|c s [q Hq]]; cbn [rstrip].
  - exists EmptyString; reflexivity.
  - destruct (isspace_all (String c s)).
    + exists (String c s); reflexivity.
    + exists q; rewrite app_cons; congruence.
Qed.

(** What [rstrip] cuts off is whitespace only. *)
Lemma rstrip_cut s : exists q, s = rstrip s +:+ q /\ isspace_all q = true.
Proof.
  induction s as [|c s (q & Hq & Hs)]; cbn [rstrip].
  - exists EmptyString. split; reflexivity.
  - destruct (isspace_all (String c s)) eqn:E.
    + exists (String c s). split; [reflexivity | exact E].
    + exists q. split; [rewrite app_cons; congruence | exact Hs].
Qed.

(** [strip] on lines with ASCII and other whitespace around [quit], inside
    it, and on bytes that are no character. *)
Example strip_spaces :
  strip (" " +:+ utf8 160 +:+ "Quit" +:+ utf8 12288 +:+ utf8 8232 +:+ " ")
  = "Quit".
Proof. vm_compute. reflexivity. Qed.

Example utf8_bytes :
  map (fun cp => map N_of_ascii (list_ascii_of_string (utf8 cp)))
    [32; 133; 160; 5760; 8192; 8202; 8232; 8239; 8287; 12288]%N
  = [ [32]; [194; 133]; [194; 160]; [225; 154; 128]; [226; 128; 128];
      [226; 128; 138]; [226; 128; 168]; [226; 128; 175]; [226; 129; 159];
      [227; 128; 128] ]%N.
Proof. vm_compute. reflexivity. Qed.

Example strip_inner : strip ("qu" +:+ utf8 160 +:+ "it ") = "qu" +:+ utf8 160 +:+ "it".
Proof. vm_compute. reflexivity. Qed.

Example strip_stray_byte :
  strip (String (ascii_of_N 160) "quit") = String (ascii_of_N 160) "quit".
Proof. vm_compute. reflexivity. Qed.

Lemma strip_infix s : exists p q, s = p +:+ strip s +:+ q.
Proof.
  destruct (lstrip_suffix s) as [p Hp].
  destruct (rstrip_prefix (lstrip s)) as [q Hq].
  exists p, q; unfold strip; congruence.
Qed.



(** The test of line 148 is the case-insensitive comparison with
    [quit]. *)
Lemma lower_quit_nocase s :
  String.eqb (lower s) "quit" = eq_nocase s "quit".
Proof.
  destruct (eq_nocase s "quit") eqn:E.
  - apply eq_nocase_spec in E. apply String.eqb_eq. exact E.
  - apply String.eqb_neq. intros H.
    assert (eq_nocase s "quit" = true) by (apply eq_nocase_spec; exact H).
    congruence.
Qed.

(** A line with anything around a spelling of [quit] is not one. *)
Lemma lower_quit_affix p s q :
  lower s = "quit" -> lower (p +:+ s +:+ q) = "quit" ->
  p = EmptyString /\ q = EmptyString.
Proof.
  intros Hs H.
  assert (L : String.length (lower (p +:+ s +:+ q)) = 4) by (rewrite H; reflexivity).
  assert (Ls : String.length (lower s) = 4) by (rewrite Hs; reflexivity).
  rewrite lower_length, !app_length in L. rewrite lower_length in Ls.
  destruct p, q; simpl in L; try lia. split; reflexivity.
Qed.

Lemma strip_quit_not_quit s :
  strip s <> s -> lower (strip s) = "quit" ->
  String.eqb (lower s) "quit" = false.
Proof.
  intros Hne Hq. apply String.eqb_neq. intros H.
  destruct (strip_infix s) as (p & q & E).
  rewrite E in H.
  destruct (lower_quit_affix _ _ _ Hq H) as [-> ->].
  apply Hne. rewrite E at 2. rewrite app_nil_l.
  clear. induction (strip s) as [|c r IH]; [reflexivity|].
  rewrite app_cons. congruence.
Qed.

End StrFacts.

(** ** Dates *)

Module DatetimeFacts.
Import Datetime.

Lemma digit_val_digit n : digit_val (digit n) = Some (n mod 10)%N.
Proof.
  unfold digit_val, digit.
  assert (H : (n mod 10 < 10)%N) by (apply N.mod_upper_bound; lia).
  generalize dependent (n mod 10)%N; intros m H.
  rewrite N_ascii_embedding by lia.
  replace ((48 <=? 48 + m)%N) with true by (symmetry; apply N.leb_le; lia).
  replace ((48 + m <=? 57)%N) with true by (symmetry; apply N.leb_le; lia).
  simpl. f_equal. lia.
Qed.

(** Reading back the [k] digits written by [zpad]. *)
Lemma read_zpad_gen k : forall j n a s,
  read_digits (k + j) a (zpad k n s)
  = read_digits j (a * 10 ^ N.of_nat k + n mod 10 ^ N.of_nat k)%N s.
Proof.
  induction k as [|k IH]; intros j n a s.
  - simpl. rewrite N.mod_1_r. f_equal. lia.
  - replace (S k + j)%nat with (k + S j)%nat by lia.
    cbn [zpad]. rewrite IH. cbn [read_digits].
    rewrite digit_val_digit. f_equal.
    rewrite Nat2N.inj_succ, N.pow_succ_r'.
    rewrite (N.Div0.mod_mul_r n 10 (10 ^ N.of_nat k)).
    generalize (n mod 10)%N ((n / 10) mod 10 ^ N.of_nat k)%N (10 ^ N.of_nat k)%N.
    intros; lia.
Qed.

Lemma read_zpad k n s :
  (n < 10 ^ N.of_nat k)%N ->
  read_digits k 0 (zpad k n s) = Some (n, s).
Proof.
  intros Hn. pose proof (read_zpad_gen k 0 n 0%N s) as H.
  rewrite Nat.add_0_r in H. rewrite H. simpl.
  rewrite N.mod_small by exact Hn. reflexivity.
Qed.

Lemma days_in_month_le y m : (days_in_month y m <= 31)%N.
Proof.
  unfold days_in_month.
  repeat match goal with |- context [if ?b then _ else _] => destruct b end; lia.
Qed.

(** The text [isoformat] produces is read back by [fromisoformat] as the
    date it came from: it is a well-formed ISO-8601 timestamp. *)
Lemma fromisoformat_isoformat d :
  valid d = true -> fromisoformat (isoformat d) = Some d.
Proof.
  intros Hv. pose proof Hv as Hv'. unfold valid in Hv'.
  repeat (apply andb_prop in Hv' as [Hv' ?]).
  repeat match goal with
         | H : (_ <=? _)%N = true |- _ => apply N.leb_le in H
         | H : (_ <? _)%N = true |- _ => apply N.ltb_lt in H
         end.
  pose proof (days_in_month_le (year d) (month d)).
  unfold fromisoformat, isoformat.
  rewrite read_zpad by (simpl; lia). cbn [mbind option_bind expect Ascii.eqb Bool.eqb].
  rewrite read_zpad by (simpl; lia). cbn [mbind option_bind expect Ascii.eqb Bool.eqb].
  rewrite read_zpad by (simpl; lia). cbn [mbind option_bind expect Ascii.eqb Bool.eqb].
  rewrite read_zpad by (simpl; lia). cbn [mbind option_bind expect Ascii.eqb Bool.eqb].
  rewrite read_zpad by (simpl; lia). cbn [mbind option_bind expect Ascii.eqb Bool.eqb].
  rewrite read_zpad by (simpl; lia). cbn [mbind option_bind].
  destruct (microsecond d =? 0)%N eqn:Eus.
  - apply N.eqb_eq in Eus. cbn [mbind option_bind].
    replace {| year := _ |} with d by (destruct d; simpl in *; congruence).
    rewrite Hv. reflexivity.
  - cbn [mbind option_bind expect Ascii.eqb Bool.eqb].
    rewrite read_zpad by (simpl; lia). cbn [mbind option_bind].
    replace {| year := _ |} with d by (destruct d; reflexivity).
    rewrite Hv. reflexivity.
Qed.

End DatetimeFacts.

(** ** The script *)

Lemma invocations_app t u : invocations (t ++ u) = invocations t ++ invocations u.
Proof. induction t as [|[] t IH]; simpl; congruence. Qed.

Lemma written_app t u : written (t ++ u) = written t ++ written u.
Proof. induction t as [|[] t IH]; simpl; congruence. Qed.

Lemma lines_read_app t u : lines_read (t ++ u) = lines_read t ++ lines_read u.
Proof. induction t as [|[] t IH]; simpl; congruence. Qed.

Lemma names_read_app t u : names_read (t ++ u) = names_read t ++ names_read u.
Proof. induction t as [|[] t IH]; simpl; congruence. Qed.

(** Every class of the model is a subclass of [Exception]: a clause
    [except Exception] handles whatever reaches it. *)
Lemma isinstance_Exception e : isinstance e Exception = true.
Proof. destruct e as [[] s]; reflexivity. Qed.

Section ScriptFacts.

Context (X : Externals).

#[local] Abbreviation World := (World X).
#[local] Abbreviation M := (M X).

Lemma quiet_nil : quiet [].
Proof. repeat split. Qed.

Lemma quiet_app t u : quiet t -> quiet u -> quiet (t ++ u).
Proof.
  intros (a & b & c) (a' & b' & c'). unfold quiet.
  rewrite invocations_app, written_app, lines_read_app, a, b, c, a', b', c'.
  repeat split.
Qed.

Lemma frames_weaken {A} (P Q : list event -> Prop) (m : M A) :
  (forall evs, P evs -> Q evs) -> frames X P m -> frames X Q m.
Proof.
  intros HPQ Hm w. destruct (Hm w) as (He & Hg & evs & Ht & HP).
  repeat split; auto. exists evs; auto.
Qed.

Lemma frames_ret {A} (P : list event -> Prop) (a : A) :
  P [] -> frames X P (ret a).
Proof.
  intros HP w; simpl. repeat split. exists []. rewrite app_nil_r; auto.
Qed.

Lemma frames_raise {A} (P : list event -> Prop) e :
  P [] -> frames X P (@raise X A e).
Proof.
  intros HP w; simpl. repeat split. exists []. rewrite app_nil_r; auto.
Qed.

Lemma frames_emit (P : list event -> Prop) ev :
  P [ev] -> frames X P (emit X ev).
Proof. intros HP w; simpl. repeat split. exists [ev]; auto. Qed.

Lemma frames_call {A} (P : list event -> Prop) (f : Ext X -> result A * Ext X) :
  P [] -> frames X P (call X f).
Proof.
  intros HP w; unfold call. destruct (f (ext X w)) as [r x]; simpl.
  repeat split. exists []. rewrite app_nil_r; auto.
Qed.

Lemma frames_get_globals (P : list event -> Prop) :
  P [] -> frames X P (get_globals X).
Proof.
  intros HP w; simpl. repeat split. exists []. rewrite app_nil_r; auto.
Qed.

Lemma frames_bind {A B} (P : list event -> Prop) (m : M A) (k : A -> M B) :
  (forall t u, P t -> P u -> P (t ++ u)) ->
  frames X P m -> (forall a, frames X P (k a)) -> frames X P (bind m k).
Proof.
  intros Happ Hm Hk w. unfold bind.
  destruct (Hm w) as (He & Hg & evs & Ht & HP).
  destruct (m w) as [[a|e] w1]; simpl in *.
  - destruct (Hk a w1) as (He' & Hg' & evs' & Ht' & HP').
    repeat split; try congruence.
    exists (evs ++ evs'). rewrite Ht', Ht, app_assoc. auto.
  - repeat split; auto. exists evs; auto.
Qed.

Lemma frames_dispatch {A} (P : list event -> Prop) (hs : list (handler X A)) e :
  P [] -> Forall (fun h => forall e, frames X P (snd h e)) hs ->
  frames X P (dispatch X hs e).
Proof.
  intros HP Hhs. induction Hhs as [|[c h] hs Hh _ IH]; simpl.
  - apply frames_raise; exact HP.
  - destruct (isinstance e c); [apply Hh | exact IH].
Qed.

Lemma frames_try_except {A} (P : list event -> Prop) (m : M A) hs :
  (forall t u, P t -> P u -> P (t ++ u)) -> P [] ->
  frames X P m -> Forall (fun h => forall e, frames X P (snd h e)) hs ->
  frames X P (try_except X m hs).
Proof.
  intros Happ HP Hm Hhs w. unfold try_except.
  destruct (Hm w) as (He & Hg & evs & Ht & HPe).
  destruct (m w) as [[a|e] w1]; simpl in *.
  - repeat split; auto. exists evs; auto.
  - destruct (frames_dispatch P hs e HP Hhs w1) as (He' & Hg' & evs' & Ht' & HP').
    repeat split; try congruence.
    exists (evs ++ evs'). rewrite Ht', Ht, app_assoc. auto.
Qed.

Lemma frames_os_environ_getitem k : frames X quiet (os_environ_getitem X k).
Proof.
  intros w; unfold os_environ_getitem, bind, emit; simpl.
  destruct (environ X w !! k); simpl; repeat split;
    exists [EvGetenv k]; repeat split.
Qed.

Lemma frames_first {A} (l : list A) : frames X quiet (first X l).
Proof.
  destruct l; [apply frames_raise | apply frames_ret]; apply quiet_nil.
Qed.

Ltac frame_step :=
  first
    [ apply frames_os_environ_getitem
    | apply frames_bind; [exact quiet_app | | intros ?]
    | apply frames_ret; exact quiet_nil
    | apply frames_raise; exact quiet_nil
    | apply frames_emit; repeat split
    | apply frames_call; exact quiet_nil
    | apply frames_get_globals; exact quiet_nil
    | apply frames_first
    | apply frames_try_except;
      [exact quiet_app | exact quiet_nil | |
       repeat (apply List.Forall_cons; [intros ?; simpl|]);
       [..|apply List.Forall_nil]] ].

(** The three tools touch neither the environment nor the configuration
    names, and do nothing the loop could mistake for its own. *)
Lemma frames_get_current_datetime args kwargs :
  frames X quiet (get_current_datetime X args kwargs).
Proof. unfold get_current_datetime. repeat frame_step. Qed.

Lemma frames_get_wikipedia_summary query :
  frames X quiet (get_wikipedia_summary X query).
Proof. unfold get_wikipedia_summary. repeat frame_step. Qed.

Lemma frames_search_attempt query : frames X quiet (search_attempt X query).
Proof. unfold search_attempt. repeat frame_step. Qed.

Lemma frames_search_company_docs query :
  frames X quiet (search_company_docs X query).
Proof.
  unfold search_company_docs. frame_step.
  - apply frames_search_attempt.
  - repeat frame_step.
Qed.

Lemma frames_tool t a : frames X quiet (func X (tool X t) a).
Proof.
  destruct t; simpl.
  - apply frames_get_current_datetime.
  - apply frames_get_wikipedia_summary.
  - apply frames_search_company_docs.
Qed.

(** The executor at work: whatever it decides, it only runs tools. *)
Lemma frames_run_agent p : frames X quiet (run_agent X p).
Proof.
  induction p as [r | s k IH | t a k IH]; simpl.
  - apply frames_call; exact quiet_nil.
  - apply frames_bind; [exact quiet_app | | intros _; exact IH].
    apply frames_emit; repeat split.
  - apply frames_bind; [exact quiet_app | apply frames_tool | exact IH].
Qed.

Lemma ainvoke_trace d w :
  environ X (snd (ainvoke X d w)) = environ X w /\
  globals X (snd (ainvoke X d w)) = globals X w /\
  exists evs,
    trace X (snd (ainvoke X d w)) = trace X w ++ EvInvoke d :: evs /\
    quiet evs.
Proof.
  unfold ainvoke, bind, emit; simpl.
  match goal with
  | |- context [run_agent X ?p ?w1] =>
      destruct (frames_run_agent p w1) as (He & Hg & evs & Ht & Hq)
  end.
  simpl in *. repeat split; auto.
  exists evs. rewrite Ht, <- app_assoc. auto.
Qed.

(** *** The loop, one line at a time *)

Lemma main_loop_nil w :
  main_loop X [] w =
    (Raise eof_error,
     snd ((bind (emit X (EvStdout ask)) (fun _ => emit X EvEOF)) w)).
Proof. reflexivity. Qed.

Lemma main_loop_quit query rest w :
  is_quit query = true ->
  main_loop X (query :: rest) w = (Ok rest, after_input X query w).
Proof.
  unfold is_quit; intros Hq. simpl. unfold bind; simpl. rewrite Hq.
  reflexivity.
Qed.

Lemma main_loop_turn query rest w :
  is_quit query = false ->
  main_loop X (query :: rest) w =
    bind (ainvoke X (input_of query))
      (fun response =>
         bind (dict_getitem X response "output")
           (fun out =>
              bind (print X [PyStr response_header; out])
                (fun _ => main_loop X rest)))
      (after_input X query w).
Proof.
  unfold is_quit; intros Hq. simpl. unfold bind at 1 2; simpl. rewrite Hq.
  reflexivity.
Qed.

Lemma main_loop_raise query rest w e w2 :
  is_quit query = false ->
  ainvoke X (input_of query) (after_input X query w) = (Raise e, w2) ->
  main_loop X (query :: rest) w = (Raise e, w2).
Proof.
  intros Hq Ha. rewrite main_loop_turn by exact Hq.
  unfold bind at 1. rewrite Ha. reflexivity.
Qed.

Lemma main_loop_next query rest w response w2 out :
  is_quit query = false ->
  ainvoke X (input_of query) (after_input X query w) = (Ok response, w2) ->
  response !! "output" = Some out ->
  main_loop X (query :: rest) w = main_loop X rest (after_print X out w2).
Proof.
  intros Hq Ha Ho. rewrite main_loop_turn by exact Hq.
  unfold bind at 1. rewrite Ha.
  unfold bind at 1, dict_getitem. rewrite Ho. reflexivity.
Qed.

Lemma main_loop_no_output query rest w response w2 :
  is_quit query = false ->
  ainvoke X (input_of query) (after_input X query w) = (Ok response, w2) ->
  response !! "output" = None ->
  main_loop X (query :: rest) w = (Raise (key_error "output"), w2).
Proof.
  intros Hq Ha Ho. rewrite main_loop_turn by exact Hq.
  unfold bind at 1. rewrite Ha.
  unfold bind at 1, dict_getitem. rewrite Ho. reflexivity.
Qed.

Lemma after_input_trace query w :
  trace X (after_input X query w) = trace X w ++ [EvStdout ask; EvStdin query].
Proof. unfold after_input; simpl. rewrite <- app_assoc. reflexivity. Qed.

Lemma after_print_trace out w :
  trace X (after_print X out w)
  = trace X w ++ [EvStdout (response_header +:+ " " +:+ py_str out +:+ nl)].
Proof. reflexivity. Qed.

(** Turns that went through lead the loop to where it stands. *)
Lemma awaiting_main_loop stdin w stdin' w' :
  awaiting X stdin w stdin' w' -> main_loop X stdin w = main_loop X stdin' w'.
Proof.
  induction 1 as [|query rest w response w2 out stdin' w' Hq Ha Ho _ IH].
  - reflexivity.
  - rewrite <- IH. eapply main_loop_next; eauto.
Qed.

(** The loop leaves the environment and the configuration names alone. *)
Lemma frames_main_loop stdin : frames X (fun _ => True) (main_loop X stdin).
Proof.
  induction stdin as [|query rest IH]; intros w.
  - rewrite main_loop_nil; simpl. repeat split.
    exists [EvStdout ask; EvEOF]. rewrite <- app_assoc. auto.
  - destruct (is_quit query) eqn:Hq.
    + rewrite main_loop_quit by exact Hq. repeat split.
      exists [EvStdout ask; EvStdin query]. cbn [snd].
      rewrite after_input_trace. auto.
    + destruct (ainvoke_trace (input_of query) (after_input X query w))
        as (He & Hg & evs & Ht & _).
      rewrite after_input_trace in Ht.
      destruct (ainvoke X (input_of query) (after_input X query w))
        as [[response|e] w2] eqn:Ha; cbn [snd] in He, Hg, Ht.
      * destruct (response !! "output") as [out|] eqn:Ho.
        -- rewrite (main_loop_next _ _ _ _ _ _ Hq Ha Ho).
           destruct (IH (after_print X out w2)) as (He' & Hg' & evs' & Ht' & _).
           rewrite He', Hg', Ht', after_print_trace, Ht.
           repeat split; auto.
           eexists. rewrite <- !app_assoc. eauto.
        -- rewrite (main_loop_no_output _ _ _ _ _ Hq Ha Ho). cbn [snd].
           repeat split; auto. eexists. rewrite Ht, <- app_assoc. eauto.
      * rewrite (main_loop_raise _ _ _ _ _ Hq Ha). cbn [snd].
        repeat split; auto. eexists. rewrite Ht, <- app_assoc. eauto.
Qed.

(** Over a whole run, whatever the executor answers: the lines read are
    the first lines of standard input, and the executor has been called
    once for each of them that is not [quit], with that line, in order. *)
Lemma main_loop_invocations stdin : forall w,
  exists evs,
    trace X (snd (main_loop X stdin w)) = trace X w ++ evs /\
    invocations evs
      = map input_of (List.filter (fun l => negb (is_quit l)) (lines_read evs)) /\
    lines_read evs `prefix_of` stdin.
Proof.
  induction stdin as [|query rest IH]; intros w.
  - rewrite main_loop_nil; simpl.
    exists [EvStdout ask; EvEOF]. rewrite <- app_assoc.
    repeat split. apply prefix_nil.
  - destruct (is_quit query) eqn:Hq.
    + rewrite main_loop_quit by exact Hq. cbn [snd].
      exists [EvStdout ask; EvStdin query]. rewrite after_input_trace.
      repeat split; simpl; [rewrite Hq; reflexivity|].
      apply prefix_cons, prefix_nil.
    + destruct (ainvoke_trace (input_of query) (after_input X query w))
        as (_ & _ & evs & Ht & Hi & _ & Hl).
      rewrite after_input_trace in Ht.
      assert (Hstop : forall r w2,
        main_loop X (query :: rest) w = (r, w2) ->
        trace X w2 = (trace X w ++ [EvStdout ask; EvStdin query])
                       ++ EvInvoke (input_of query) :: evs ->
        exists evs0,
          trace X (snd (main_loop X (query :: rest) w)) = trace X w ++ evs0 /\
          invocations evs0
            = map input_of
                (List.filter (fun l => negb (is_quit l)) (lines_read evs0)) /\
          lines_read evs0 `prefix_of` (query :: rest)).
      { intros r w2 -> Hw2. cbn [snd].
        exists ([EvStdout ask; EvStdin query] ++ EvInvoke (input_of query) :: evs).
        rewrite Hw2, <- app_assoc. split; [reflexivity|].
        simpl. rewrite Hi, Hl, Hq. simpl. split; [reflexivity|].
        apply prefix_cons, prefix_nil. }
      destruct (ainvoke X (input_of query) (after_input X query w))
        as [[response|e] w2] eqn:Ha; cbn [snd] in Ht.
      * destruct (response !! "output") as [out|] eqn:Ho.
        -- rewrite (main_loop_next _ _ _ _ _ _ Hq Ha Ho).
           destruct (IH (after_print X out w2)) as (evs' & Ht' & Hi' & Hl').
           exists ([EvStdout ask; EvStdin query]
                   ++ (EvInvoke (input_of query) :: evs)
                   ++ EvStdout (response_header +:+ " " +:+ py_str out +:+ nl)
                      :: evs').
           rewrite Ht', after_print_trace, Ht, <- !app_assoc.
           split; [reflexivity|].
           cbn [app invocations lines_read].
           rewrite invocations_app, lines_read_app. cbn [invocations lines_read].
           rewrite Hi, Hl, Hi'. cbn [app List.filter map]. rewrite Hq.
           split; [reflexivity|]. apply prefix_cons. exact Hl'.
        -- eapply Hstop;
             [exact (main_loop_no_output _ _ _ _ _ Hq Ha Ho) | exact Ht].
      * eapply Hstop; [exact (main_loop_raise _ _ _ _ _ Hq Ha) | exact Ht].
Qed.

(** *** The claims on the interactive loop *)

(** C1.  For every line the loop reads: when the line equals [quit] up to
    the case of its letters, the loop ends there, without a call to the
    agent executor; for any other line the executor is called once, with
    that line as its input and before anything else the script does, and
    when it returns a result with an [output] field the loop prints the
    value of that field and is back awaiting input on the next line. *)
Theorem C1_loop_turn (query : string) (rest : list string) (w : World) :
  (Str.eq_nocase query "quit" = true ->
     main_loop X (query :: rest) w = (Ok rest, after_input X query w) /\
     invocations (events_of (main_loop X (query :: rest)) w) = []) /\
  (Str.eq_nocase query "quit" = false ->
     (exists evs,
        trace X (snd (ainvoke X (input_of query) (after_input X query w)))
        = trace X w
            ++ [EvStdout ask; EvStdin query; EvInvoke (input_of query)]
            ++ evs /\
        invocations evs = [] /\ written evs = []) /\
     (forall response w2 out,
        ainvoke X (input_of query) (after_input X query w)
          = (Ok response, w2) ->
        response !! "output" = Some out ->
        main_loop X (query :: rest) w
          = main_loop X rest (after_print X out w2) /\
        trace X (after_print X out w2)
          = trace X w2
              ++ [EvStdout (response_header +:+ " " +:+ py_str out +:+ nl)])).
Proof.
  rewrite <- StrFacts.lower_quit_nocase. fold (is_quit query). split.
  - intros Hq. split; [apply main_loop_quit; exact Hq|].
    unfold events_of. rewrite main_loop_quit by exact Hq. cbn [snd].
    rewrite after_input_trace, drop_app_length. reflexivity.
  - intros Hq. split.
    + destruct (ainvoke_trace (input_of query) (after_input X query w))
        as (_ & _ & evs & Ht & Hi & Hw & _).
      exists evs. rewrite Ht, after_input_trace, <- app_assoc. auto.
    + intros response w2 out Ha Ho. split.
      * eapply main_loop_next; eauto.
      * apply after_print_trace.
Qed.

(** C7.  An exception raised by the executor call, at whatever turn of the
    loop, is not caught: [main] ends with it in the world the executor
    left, nothing more is read or printed, and the process exits with
    status 1. *)
Theorem C7_executor_exception_fatal
    (stdin : list string) (w0 w : World)
    (query : string) (rest : list string) (w1 : World)
    (e : exn) (w2 : World) :
  startup X w0 = (Ok tt, w) ->
  awaiting X stdin (snd (print X [PyStr banner] w)) (query :: rest) w1 ->
  is_quit query = false ->
  ainvoke X (input_of query) (after_input X query w1) = (Raise e, w2) ->
  main_loop X (query :: rest) w1 = (Raise e, w2) /\
  main X stdin w = (Raise e, w2) /\
  script X stdin w0 = (Raise e, w2) /\
  exit_status (fst (script X stdin w0)) = 1%N.
Proof.
  intros Hs Hreach Hq Ha.
  assert (H1 : main_loop X (query :: rest) w1 = (Raise e, w2))
    by (eapply main_loop_raise; eauto).
  assert (H2 : main X stdin w = (Raise e, w2)).
  { unfold main. unfold bind at 1. cbn [print emit].
    rewrite <- H1. apply (awaiting_main_loop _ _ _ _ Hreach). }
  assert (H3 : script X stdin w0 = (Raise e, w2)).
  { unfold script, bind. rewrite Hs. exact H2. }
  rewrite H3. auto.
Qed.

(** C9.  The test of line 148 is made on the line as read: a line that is
    a spelling of [quit] only once the whitespace around it is stripped
    does not end the loop.  The line is passed, as read, to the executor,
    once; the turn is the one of any other line, so that when the executor
    returns a result with an [output] the loop prints it and goes on
    with the next line, and it ends there only on an exception. *)
Theorem C9_quit_not_trimmed (query : string) (rest : list string) (w : World) :
  Str.strip query <> query ->
  Str.lower (Str.strip query) = "quit" ->
  is_quit query = false /\
  main_loop X (query :: rest) w <> (Ok rest, after_input X query w) /\
  (exists evs,
     trace X (snd (main_loop X (query :: rest) w))
     = trace X w
         ++ [EvStdout ask; EvStdin query; EvInvoke {[ "input" := PyStr query ]}]
         ++ evs) /\
  main_loop X (query :: rest) w
  = bind (ainvoke X {[ "input" := PyStr query ]})
      (fun response =>
         bind (dict_getitem X response "output")
           (fun out =>
              bind (print X [PyStr response_header; out])
                (fun _ => main_loop X rest)))
      (after_input X query w) /\
  (exists evs,
     trace X (snd (ainvoke X {[ "input" := PyStr query ]}
                     (after_input X query w)))
     = trace X w
         ++ [EvStdout ask; EvStdin query; EvInvoke {[ "input" := PyStr query ]}]
         ++ evs /\
     invocations evs = [] /\ written evs = [] /\ lines_read evs = []) /\
  (forall response w2 out,
     ainvoke X {[ "input" := PyStr query ]} (after_input X query w)
       = (Ok response, w2) ->
     response !! "output" = Some out ->
     main_loop X (query :: rest) w
     = main_loop X rest (after_print X out w2)) /\
  (forall r w2,
     main_loop X (query :: rest) w = (r, w2) ->
     (exists e, r = Raise e) \/
     (exists response w1 out,
        ainvoke X {[ "input" := PyStr query ]} (after_input X query w)
          = (Ok response, w1) /\
        response !! "output" = Some out /\
        main_loop X rest (after_print X out w1) = (r, w2))).
Proof.
  intros Hne Hq.
  assert (Hnq : is_quit query = false)
    by (apply StrFacts.strip_quit_not_quit; assumption).
  assert (Hex : exists evs,
    trace X (snd (main_loop X (query :: rest) w))
    = trace X w
        ++ [EvStdout ask; EvStdin query; EvInvoke (input_of query)] ++ evs).
  { destruct (ainvoke_trace (input_of query) (after_input X query w))
      as (_ & _ & evs & Ht & _).
    rewrite after_input_trace in Ht.
    destruct (ainvoke X (input_of query) (after_input X query w))
      as [[response|e] w2] eqn:Ha; cbn [snd] in Ht.
    - destruct (response !! "output") as [out|] eqn:Ho.
      + rewrite (main_loop_next _ _ _ _ _ _ Hnq Ha Ho).
        destruct (frames_main_loop rest (after_print X out w2))
          as (_ & _ & evs' & Ht' & _).
        rewrite Ht', after_print_trace, Ht.
        eexists. rewrite <- !app_assoc. reflexivity.
      + rewrite (main_loop_no_output _ _ _ _ _ Hnq Ha Ho). cbn [snd].
        eexists. rewrite Ht, <- !app_assoc. reflexivity.
    - rewrite (main_loop_raise _ _ _ _ _ Hnq Ha). cbn [snd].
      eexists. rewrite Ht, <- !app_assoc. reflexivity. }
  split; [exact Hnq|]. split; [|split; [exact Hex|]].
  { intros Heq. destruct Hex as (evs & Ht). rewrite Heq in Ht. cbn [snd] in Ht.
    rewrite after_input_trace in Ht. apply app_inv_head in Ht.
    discriminate Ht. }
  split; [exact (main_loop_turn _ _ _ Hnq)|].
  split; [|split].
  - destruct (ainvoke_trace (input_of query) (after_input X query w))
      as (_ & _ & evs & Ht & Hi & Hw & Hl).
    exists evs. rewrite after_input_trace, <- app_assoc in Ht. auto.
  - intros response w2 out Ha Ho. exact (main_loop_next _ _ _ _ _ _ Hnq Ha Ho).
  - intros r w2 Hrun.
    destruct (ainvoke X (input_of query) (after_input X query w))
      as [[response|e] w1] eqn:Ha.
    + destruct (response !! "output") as [out|] eqn:Ho.
      * right. exists response, w1, out. repeat split; auto.
        rewrite <- Hrun. symmetry.
        exact (main_loop_next _ _ _ _ _ _ Hnq Ha Ho).
      * left. rewrite (main_loop_no_output _ _ _ _ _ Hnq Ha Ho) in Hrun.
        injection Hrun as <- _. eauto.
    + left. rewrite (main_loop_raise _ _ _ _ _ Hnq Ha) in Hrun.
      injection Hrun as <- _. eauto.
Qed.

(** *** The tools, step by step *)

Ltac run_search :=
  unfold search_attempt, os_environ_getitem;
  unfold bind, get_globals, emit, call, first, ret, raise;
  cbn [fst snd environ globals ext trace];
  repeat match goal with
    | |- context [AzureOpenAI X ?a ?x] =>
        destruct (AzureOpenAI X a x) as [[?|?] ?];
        cbn [fst snd environ globals ext trace]
    | |- context [chat_completions_create X ?c ?r ?x] =>
        destruct (chat_completions_create X c r x) as [[[[|? ?]]|?] ?];
        cbn [fst snd environ globals ext trace choices]
    | |- context [@lookup _ _ _ _ ?k (environ X ?w)] =>
        destruct (@lookup _ _ _ _ k (environ X w));
        cbn [fst snd environ globals ext trace]
    end.

(** What the [try] block of the search tool comes to. *)
Lemma search_attempt_fst query w :
  fst (search_attempt X query w) =
    let g := globals X w in
    let env := environ X w in
    match AzureOpenAI X (client_arguments g) (ext X w) with
    | (Raise e, _) => Raise e
    | (Ok client, x) =>
        match env !! "AZURE_SEARCH_ENDPOINT" with
        | None => Raise (key_error "AZURE_SEARCH_ENDPOINT")
        | Some se =>
        match env !! "AZURE_SEARCH_INDEX" with
        | None => Raise (key_error "AZURE_SEARCH_INDEX")
        | Some si =>
        match env !! "AZURE_SEARCH_KEY" with
        | None => Raise (key_error "AZURE_SEARCH_KEY")
        | Some sk =>
            match chat_completions_create X client
                    (search_request g query se si sk) x with
            | (Raise e, _) => Raise e
            | (Ok c, _) =>
                match choices c with
                | [] => Raise index_error
                | ch :: _ => Ok (content (message ch))
                end
            end
        end end end
    end.
Proof. cbv zeta. run_search; reflexivity. Qed.

(** What it adds to the trace. *)
Lemma search_attempt_trace query w :
  trace X (snd (search_attempt X query w)) =
    let g := globals X w in
    let env := environ X w in
    trace X w ++ EvClient (client_arguments g) ::
    match AzureOpenAI X (client_arguments g) (ext X w) with
    | (Raise e, _) => []
    | (Ok client, x) =>
        map EvGetenv (looked_up env search_settings) ++
        match env !! "AZURE_SEARCH_ENDPOINT", env !! "AZURE_SEARCH_INDEX",
              env !! "AZURE_SEARCH_KEY" with
        | Some se, Some si, Some sk => [EvChat (search_request g query se si sk)]
        | _, _, _ => []
        end
    end.
Proof.
  cbv zeta. unfold search_settings, looked_up.
  run_search; rewrite <- ?app_assoc; reflexivity.
Qed.

Lemma search_company_docs_fst query w :
  fst (search_company_docs X query w) =
    match fst (search_attempt X query w) with
    | Ok v => Ok v
    | Raise e => Ok (PyStr ("Search error: " +:+ exc_str e))
    end.
Proof.
  unfold search_company_docs, try_except.
  destruct (search_attempt X query w) as [[v|e] w1]; [reflexivity|].
  cbn [dispatch fst]. rewrite isinstance_Exception. reflexivity.
Qed.

Lemma search_company_docs_snd query w :
  snd (search_company_docs X query w) = snd (search_attempt X query w).
Proof.
  unfold search_company_docs, try_except.
  destruct (search_attempt X query w) as [[v|e] w1]; [reflexivity|].
  cbn [dispatch snd]. rewrite isinstance_Exception. reflexivity.
Qed.

(** The two classes of the encyclopedia client are apart. *)
Lemma page_error_not_disambiguation e :
  isinstance e PageError = true -> isinstance e DisambiguationError = false.
Proof. destruct e as [[] s]; simpl; intros H; try discriminate H; reflexivity. Qed.

Lemma load_environment_run w :
  load_environment X w =
    (Ok tt,
     let env := environ X w ∪ dotenv_values X (ext X w) in
     {| environ := env;
        globals :=
          {| openai_api_key := of_option (env !! "AZURE_OAI_KEY");
             deployment := of_option (env !! "AZURE_OAI_DEPLOYMENT");
             endpoint := of_option (env !! "AZURE_OAI_ENDPOINT");
             api_version := "2024-02-01" |};
        ext := ext X w;
        trace := trace X w ++ [EvLoadDotenv; EvGetenv "AZURE_OAI_KEY";
                               EvGetenv "AZURE_OAI_DEPLOYMENT";
                               EvGetenv "AZURE_OAI_ENDPOINT"] |}).
Proof.
  unfold load_environment, os_getenv, load_dotenv.
  unfold bind, emit, get_globals, set_globals.
  cbn [fst snd environ globals ext trace openai_api_key deployment endpoint
       api_version].
  rewrite <- !app_assoc. reflexivity.
Qed.

(** *** The claims on the tools and the configuration *)

(** C2.  The encyclopedia tool never raises and always returns a string:
    the summary when the service answers; a text containing
    [Disambiguation error] on a disambiguation error; exactly
    [Page not found.] on a page error; the rendering of the exception on
    any other one. *)
Theorem C2_wikipedia_never_raises (query : string) (w : World) :
  exists s,
    fst (get_wikipedia_summary X query w) = Ok (PyStr s) /\
    (forall summary,
       fst (wikipedia_summary X query (ext X w)) = Ok summary ->
       s = summary) /\
    (forall e,
       fst (wikipedia_summary X query (ext X w)) = Raise e ->
       (isinstance e DisambiguationError = true ->
          s = "Disambiguation error: " +:+ exc_str e /\
          Str.occurs_in "Disambiguation error" s) /\
       (isinstance e PageError = true -> s = "Page not found.") /\
       (isinstance e DisambiguationError = false ->
        isinstance e PageError = false -> s = exc_str e)).
Proof.
  unfold get_wikipedia_summary, try_except, bind, emit, call, ret.
  cbn [fst snd environ globals ext trace].
  destruct (wikipedia_summary X query (ext X w)) as [[summary|e] x];
    cbn [fst snd dispatch].
  - exists summary. split; [reflexivity|]. split.
    + intros ? [= <-]. reflexivity.
    + intros ? [=].
  - destruct (isinstance e DisambiguationError) eqn:Hd;
      [|destruct (isinstance e PageError) eqn:Hp;
        [|rewrite isinstance_Exception]];
      cbn [fst]; eexists; (split; [reflexivity|]);
      (split; [intros ? [=]|]); intros e' [= <-]; rewrite ?Hd, ?Hp.
    + split; [|split].
      * intros _. split; [reflexivity|].
        exists EmptyString, (": " +:+ exc_str e). reflexivity.
      * intros Hp. apply page_error_not_disambiguation in Hp. congruence.
      * intros [=].
    + split; [|split]; [intros [=] | reflexivity | intros _ [=]].
    + split; [|split]; [intros [=] | intros [=] | reflexivity].
Qed.

(** C3.  The search tool never raises.  Whatever fails in its [try] block
    comes back as a string that starts with [Search error:], followed by
    the rendering of the exception: the client that cannot be built, a
    search setting missing from the environment, the request that fails,
    an answer with no choice.  When nothing fails, the tool returns the
    content of the first choice of the answer. *)
Theorem C3_search_never_raises (query : string) (w : World) :
  exists v,
    fst (search_company_docs X query w) = Ok v /\
    (forall e,
       fst (search_attempt X query w) = Raise e ->
       exists msg,
         v = PyStr msg /\ msg = "Search error: " +:+ exc_str e /\
         String.prefix "Search error:" msg = true) /\
    (forall c, fst (search_attempt X query w) = Ok c -> v = c) /\
    (forall e,
       fst (AzureOpenAI X (client_arguments (globals X w)) (ext X w))
         = Raise e ->
       fst (search_attempt X query w) = Raise e) /\
    (forall client x k,
       AzureOpenAI X (client_arguments (globals X w)) (ext X w)
         = (Ok client, x) ->
       last (looked_up (environ X w) search_settings) = Some k ->
       environ X w !! k = None ->
       fst (search_attempt X query w) = Raise (key_error k)) /\
    (forall client x se si sk,
       AzureOpenAI X (client_arguments (globals X w)) (ext X w)
         = (Ok client, x) ->
       environ X w !! "AZURE_SEARCH_ENDPOINT" = Some se ->
       environ X w !! "AZURE_SEARCH_INDEX" = Some si ->
       environ X w !! "AZURE_SEARCH_KEY" = Some sk ->
       fst (search_attempt X query w) =
         match fst (chat_completions_create X client
                      (search_request (globals X w) query se si sk) x) with
         | Raise e => Raise e
         | Ok c => match choices c with
                   | [] => Raise index_error
                   | ch :: _ => Ok (content (message ch))
                   end
         end).
Proof.
  assert (Hcauses :
    (forall e,
       fst (AzureOpenAI X (client_arguments (globals X w)) (ext X w))
         = Raise e ->
       fst (search_attempt X query w) = Raise e) /\
    (forall client x k,
       AzureOpenAI X (client_arguments (globals X w)) (ext X w)
         = (Ok client, x) ->
       last (looked_up (environ X w) search_settings) = Some k ->
       environ X w !! k = None ->
       fst (search_attempt X query w) = Raise (key_error k)) /\
    (forall client x se si sk,
       AzureOpenAI X (client_arguments (globals X w)) (ext X w)
         = (Ok client, x) ->
       environ X w !! "AZURE_SEARCH_ENDPOINT" = Some se ->
       environ X w !! "AZURE_SEARCH_INDEX" = Some si ->
       environ X w !! "AZURE_SEARCH_KEY" = Some sk ->
       fst (search_attempt X query w) =
         match fst (chat_completions_create X client
                      (search_request (globals X w) query se si sk) x) with
         | Raise e => Raise e
         | Ok c => match choices c with
                   | [] => Raise index_error
                   | ch :: _ => Ok (content (message ch))
                   end
         end)).
  { rewrite search_attempt_fst. cbv zeta. split; [|split].
    - intros e He.
      destruct (AzureOpenAI X _ _) as [[?|?] ?]; simpl in He; congruence.
    - intros client x k -> Hl Hk.
      unfold search_settings in Hl. cbn [looked_up] in Hl.
      destruct (environ X w !! "AZURE_SEARCH_ENDPOINT") eqn:E1;
        [|cbn [last] in Hl; congruence].
      destruct (environ X w !! "AZURE_SEARCH_INDEX") eqn:E2;
        [|cbn [last] in Hl; congruence].
      destruct (environ X w !! "AZURE_SEARCH_KEY") eqn:E3;
        cbn [last] in Hl; congruence.
    - intros client x se si sk -> -> -> ->.
      destruct (chat_completions_create X _ _ _) as [[c|e] x']; reflexivity. }
  rewrite search_company_docs_fst.
  destruct (fst (search_attempt X query w)) as [v|e] eqn:Ha.
  - exists v. split; [reflexivity|]. split; [intros ? [=]|].
    split; [intros ? [= <-]; reflexivity|]. exact Hcauses.
  - eexists. split; [reflexivity|].
    split; [intros ? [= <-]; eexists; repeat split|].
    split; [intros ? [=]|]. exact Hcauses.
Qed.

(** C4.  Whatever its arguments, the date tool returns, without raising,
    the ISO format of what the clock reads when it is called; that text is
    a well-formed ISO-8601 timestamp, read back as the same date; and
    nothing changes in the process but the clock having been read. *)
Theorem C4_datetime_tool
    (args : list pyval) (kwargs : gmap string pyval) (w : World) :
  let d := fst (now X (ext X w)) in
  get_current_datetime X args kwargs w =
    (Ok (PyStr (Datetime.isoformat d)),
     {| environ := environ X w; globals := globals X w;
        ext := snd (now X (ext X w));
        trace := trace X w ++ [EvClock] |}) /\
  Datetime.fromisoformat (Datetime.isoformat d) = Some d.
Proof.
  cbv zeta. split.
  - unfold get_current_datetime, bind, emit, call, ret.
    cbn [fst snd environ globals ext trace].
    destruct (now X (ext X w)) as [d x]. reflexivity.
  - apply DatetimeFacts.fromisoformat_isoformat, now_valid.
Qed.

(** C5, as the code has it.  The configuration loader looks up three names
    in the process environment, [AZURE_OAI_KEY], [AZURE_OAI_DEPLOYMENT]
    and [AZURE_OAI_ENDPOINT], once the bindings of the [.env] file are
    added to it, and no other; it binds the configuration names to what
    it found and never raises. *)
Theorem C5_loader_reads_three (w : World) :
  fst (load_environment X w) = Ok tt /\
  names_read (events_of (load_environment X) w)
    = ["AZURE_OAI_KEY"; "AZURE_OAI_DEPLOYMENT"; "AZURE_OAI_ENDPOINT"] /\
  (forall k, In k search_settings ->
             ~ In k (names_read (events_of (load_environment X) w))) /\
  let env := environ X w ∪ dotenv_values X (ext X w) in
  environ X (snd (load_environment X w)) = env /\
  globals X (snd (load_environment X w)) =
    {| openai_api_key := of_option (env !! "AZURE_OAI_KEY");
       deployment := of_option (env !! "AZURE_OAI_DEPLOYMENT");
       endpoint := of_option (env !! "AZURE_OAI_ENDPOINT");
       api_version := "2024-02-01" |}.
Proof.
  unfold events_of. rewrite load_environment_run. cbv zeta.
  cbn [fst snd environ globals trace]. rewrite drop_app_length.
  repeat split.
  intros k Hk Hin. unfold search_settings in Hk. simpl in Hk, Hin.
  intuition congruence.
Qed.

(** C6, as the code has it.  On every call in which the client object is
    built, the search tool looks up [AZURE_SEARCH_ENDPOINT],
    [AZURE_SEARCH_INDEX] and [AZURE_SEARCH_KEY], in this order, in the
    process environment as it is at the time of the call, up to the first
    that is not set; when the three are set, the values found then are the
    ones the request carries, whatever was bound at start-up. *)
Theorem C6_search_settings_read_at_call
    (query : string) (w : World) (client : Client X) (x : Ext X) :
  AzureOpenAI X (client_arguments (globals X w)) (ext X w) = (Ok client, x) ->
  names_read (events_of (search_company_docs X query) w)
    = looked_up (environ X w) search_settings /\
  (forall se si sk,
     environ X w !! "AZURE_SEARCH_ENDPOINT" = Some se ->
     environ X w !! "AZURE_SEARCH_INDEX" = Some si ->
     environ X w !! "AZURE_SEARCH_KEY" = Some sk ->
     names_read (events_of (search_company_docs X query) w) = search_settings /\
     In (EvChat (search_request (globals X w) query se si sk))
        (events_of (search_company_docs X query) w)).
Proof.
  intros Hc. unfold events_of.
  rewrite search_company_docs_snd, search_attempt_trace. cbv zeta.
  rewrite drop_app_length, Hc. split.
  - cbn [names_read]. rewrite names_read_app.
    replace (names_read (map EvGetenv (looked_up (environ X w) search_settings)))
      with (looked_up (environ X w) search_settings)
      by (induction (looked_up _ _); simpl; congruence).
    destruct (environ X w !! "AZURE_SEARCH_ENDPOINT");
      [destruct (environ X w !! "AZURE_SEARCH_INDEX");
       [destruct (environ X w !! "AZURE_SEARCH_KEY")|]|];
      simpl; rewrite app_nil_r; reflexivity.
  - intros se si sk He Hi Hk. unfold search_settings. cbn [looked_up].
    rewrite He, Hi, Hk. split; [reflexivity|].
    simpl. auto 10.
Qed.

(** C10.  When the request goes through and the content of the first
    choice is [None], the search tool returns [None], not a string. *)
Theorem C10_search_returns_none
    (query : string) (w : World) (client : Client X) (x x' : Ext X)
    (se si sk : string) (c : completion) (ch : choice) (others : list choice) :
  AzureOpenAI X (client_arguments (globals X w)) (ext X w) = (Ok client, x) ->
  environ X w !! "AZURE_SEARCH_ENDPOINT" = Some se ->
  environ X w !! "AZURE_SEARCH_INDEX" = Some si ->
  environ X w !! "AZURE_SEARCH_KEY" = Some sk ->
  chat_completions_create X client
    (search_request (globals X w) query se si sk) x = (Ok c, x') ->
  choices c = ch :: others ->
  content (message ch) = PyNone ->
  fst (search_company_docs X query w) = Ok PyNone /\
  is_str PyNone = false.
Proof.
  intros Hc He Hi Hk Hr Hch Hnone.
  rewrite search_company_docs_fst, search_attempt_fst. cbv zeta.
  rewrite Hc, He, Hi, Hk, Hr, Hch, Hnone. split; reflexivity.
Qed.

(** C8.  Once the loader has bound them, nothing rebinds the configuration
    names: not a tool, not the executor at work, not the loop; when the
    process ends they are what the loader made them. *)
Theorem C8_configuration_immutable :
  (forall t a w, globals X (snd (func X (tool X t) a w)) = globals X w) /\
  (forall d w, globals X (snd (ainvoke X d w)) = globals X w) /\
  (forall stdin w, globals X (snd (main X stdin w)) = globals X w) /\
  (forall stdin w,
     globals X (snd (script X stdin w))
     = globals X (snd (load_environment X w))).
Proof.
  assert (Hmain : forall stdin w,
            globals X (snd (main X stdin w)) = globals X w).
  { intros stdin w. unfold main, bind at 1. cbn [print emit].
    destruct (frames_main_loop stdin
                (snd (print X [PyStr banner] w))) as (_ & Hg & _).
    exact Hg. }
  split; [|split; [|split]].
  - intros t a w. apply (frames_tool t a w).
  - intros d w. apply (ainvoke_trace d w).
  - exact Hmain.
  - intros stdin w. unfold script, startup, bind, emit, call.
    rewrite load_environment_run. cbv zeta.
    cbn [fst snd environ globals ext trace].
    destruct (assemble X (ext X w)) as [[[]|e] x]; cbn [snd].
    + rewrite Hmain. reflexivity.
    + reflexivity.
Qed.

End ScriptFacts.

(** ** More on text and dates *)

Module MoreStrFacts.
Import Str.

(** A byte is mapped by [lower_char] to itself or, when it is a capital,
    to its small letter. *)
Lemma lower_char_table :
  forallb (fun a =>
    Ascii.eqb a (lower_char a) || Ascii.eqb a (upper_char (lower_char a)))
    all_ascii = true.
Proof. vm_compute. reflexivity. Qed.

Lemma lower_char_inv a c :
  lower_char a = c -> a = c \/ a = upper_char c.
Proof.
  intros <-. pose proof lower_char_table as H.
  rewrite List.forallb_forall in H.
  specialize (H a (StrFacts.in_all_ascii a)).
  apply orb_true_iff in H as [H|H]; apply Ascii.eqb_eq in H; auto.
Qed.

Lemma quit_spellings_quit :
  forallb (fun s => String.eqb (lower s) "quit") quit_spellings = true.
Proof. vm_compute. reflexivity. Qed.

End MoreStrFacts.

Module MoreDatetimeFacts.
Import Datetime.

Lemma zpad_length k : forall n s,
  String.length (zpad k n s) = k + String.length s.
Proof.
  induction k as [|k IH]; intros n s; simpl; [reflexivity|].
  rewrite IH. simpl. lia.
Qed.

Lemma isoformat_length d :
  String.length (isoformat d)
  = if (microsecond d =? 0)%N then 19 else 26.
Proof.
  unfold isoformat.
  repeat (rewrite zpad_length; cbn [String.length]).
  destruct (microsecond d =? 0)%N; cbn [String.length];
    rewrite ?zpad_length; reflexivity.
Qed.

End MoreDatetimeFacts.
(** ** Whole runs *)

Lemma requests_app t u : requests (t ++ u) = requests t ++ requests u.
Proof. induction t as [|[] t IH]; simpl; congruence. Qed.

Lemma clients_app t u : clients (t ++ u) = clients t ++ clients u.
Proof. induction t as [|[] t IH]; simpl; congruence. Qed.

Lemma eofs_app t u : eofs (t ++ u) = eofs t + eofs u.
Proof. induction t as [|[] t IH]; simpl; congruence. Qed.

Section RunFacts.

Context (X : Externals).

#[local] Abbreviation World := (World X).

(** What steps 1 to 5 come to: the loader's work, then the assembly, which
    alone can fail. *)
Lemma startup_run (w : World) :
  startup X w
  = (fst (assemble X (ext X w)),
     after_startup X w (snd (assemble X (ext X w)))).
Proof.
  unfold startup, bind. rewrite load_environment_run. cbv zeta.
  unfold emit, call. cbn [fst snd environ globals ext trace].
  destruct (assemble X (ext X w)) as [[[]|e] x]; cbn [fst snd];
    unfold after_startup; rewrite <- app_assoc; reflexivity.
Qed.

Lemma script_run (stdin : list string) (w : World) :
  script X stdin w =
    match fst (assemble X (ext X w)) with
    | Ok _ => main X stdin (after_startup X w (snd (assemble X (ext X w))))
    | Raise e => (Raise e, after_startup X w (snd (assemble X (ext X w))))
    end.
Proof.
  unfold script, bind at 1. rewrite startup_run.
  destruct (fst (assemble X (ext X w))); reflexivity.
Qed.

Lemma main_run (stdin : list string) (w : World) :
  main X stdin w = main_loop X stdin (snd (print X [PyStr banner] w)).
Proof. reflexivity. Qed.

(** *** The tools and the executor only talk to the services *)

Lemma service_events_nil : service_events [].
Proof. reflexivity. Qed.

Lemma service_events_app t u :
  service_events t -> service_events u -> service_events (t ++ u).
Proof.
  unfold service_events. rewrite forallb_app. intros -> ->. reflexivity.
Qed.

Lemma service_events_quiet evs :
  service_events evs ->
  invocations evs = [] /\ written evs = [] /\ lines_read evs = [] /\
  eofs evs = 0.
Proof.
  unfold service_events.
  induction evs as [|[] evs IH]; simpl; intros H;
    try discriminate H; auto.
Qed.

Ltac service_step :=
  first
    [ apply frames_bind; [exact service_events_app | | intros ?]
    | apply frames_ret; exact service_events_nil
    | apply frames_raise; exact service_events_nil
    | apply frames_emit; reflexivity
    | apply frames_call; exact service_events_nil
    | apply frames_get_globals; exact service_events_nil
    | apply frames_try_except;
      [exact service_events_app | exact service_events_nil | |
       repeat (apply List.Forall_cons; [intros ?; simpl|]);
       [..|apply List.Forall_nil]] ].

Lemma services_os_environ_getitem k :
  frames X service_events (os_environ_getitem X k).
Proof.
  unfold os_environ_getitem. service_step; [service_step|].
  intros w. destruct (environ X w !! k); simpl; repeat split;
    exists []; rewrite app_nil_r; auto using service_events_nil.
Qed.

Lemma services_first {A} (l : list A) : frames X service_events (first X l).
Proof. destruct l; simpl; service_step. Qed.

Lemma services_tool t a : frames X service_events (func X (tool X t) a).
Proof.
  destruct t; simpl.
  - unfold get_current_datetime. repeat service_step.
  - unfold get_wikipedia_summary. repeat service_step.
  - unfold search_company_docs, search_attempt.
    repeat first [ apply services_os_environ_getitem
                 | apply services_first
                 | service_step ].
Qed.

Lemma services_run_agent p : frames X service_events (run_agent X p).
Proof.
  induction p as [r | s k IH | t a k IH]; simpl.
  - apply frames_call; exact service_events_nil.
  - apply frames_bind; [exact service_events_app | | intros _; exact IH].
    apply frames_emit; reflexivity.
  - apply frames_bind; [exact service_events_app | apply services_tool | exact IH].
Qed.

Lemma ainvoke_services d (w : World) :
  exists evs,
    trace X (snd (ainvoke X d w)) = trace X w ++ EvInvoke d :: evs /\
    service_events evs.
Proof.
  unfold ainvoke, bind, emit; simpl.
  match goal with
  | |- context [run_agent X ?p ?w1] =>
      destruct (services_run_agent p w1) as (_ & _ & evs & Ht & Hq)
  end.
  simpl in *. exists evs. rewrite Ht, <- app_assoc. auto.
Qed.

Lemma response_is_no_prompt s :
  String.eqb ask (response_header +:+ s) = false.
Proof. reflexivity. Qed.

(** A run of the loop, whatever the executor answers: it prompts, reads
    lines that are not [quit], each passed to the executor, and then either
    reads a [quit] line and returns the lines after it, or ends on an
    exception. *)
Lemma main_loop_run (stdin : list string) : forall w : World,
  exists evs pre,
    trace X (snd (main_loop X stdin w)) = trace X w ++ evs /\
    run_of_loop stdin (fst (main_loop X stdin w)) evs pre.
Proof.
  induction stdin as [|query rest IH]; intros w.
  - rewrite main_loop_nil. exists [EvStdout ask; EvEOF], [].
    simpl. rewrite <- app_assoc. split; [reflexivity|].
    split; [eauto|]. repeat split; auto.
    right. exists eof_error. repeat split; auto.
  - destruct (is_quit query) eqn:Hq.
    + rewrite main_loop_quit by exact Hq. cbn [fst snd].
      exists [EvStdout ask; EvStdin query], []. rewrite after_input_trace.
      split; [reflexivity|]. split; [eauto|].
      repeat split; auto. left. exists query, rest. repeat split; auto.
    + destruct (ainvoke_services (input_of query) (after_input X query w))
        as (evs & Ht & Hs).
      apply service_events_quiet in Hs as (Hi & Hw & Hl & He).
      rewrite after_input_trace in Ht.
      assert (Hstop : forall e w2,
        main_loop X (query :: rest) w = (Raise e, w2) ->
        trace X w2 = (trace X w ++ [EvStdout ask; EvStdin query])
                       ++ EvInvoke (input_of query) :: evs ->
        exists evs0 pre,
          trace X (snd (main_loop X (query :: rest) w)) = trace X w ++ evs0 /\
          run_of_loop (query :: rest) (fst (main_loop X (query :: rest) w))
            evs0 pre).
      { intros e w2 -> Hw2. cbn [fst snd].
        exists ([EvStdout ask; EvStdin query] ++ EvInvoke (input_of query) :: evs),
               [query].
        rewrite Hw2, <- app_assoc. split; [reflexivity|].
        split; [simpl; eauto|].
        split; [repeat constructor; exact Hq|].
        unfold prompts. simpl. rewrite Hi, Hw, Hl, He.
        split; [reflexivity|]. split; [reflexivity|].
        right. exists e. repeat split; auto.
        apply prefix_cons, prefix_nil. }
      destruct (ainvoke X (input_of query) (after_input X query w))
        as [[response|e] w2] eqn:Ha; cbn [snd] in Ht.
      * destruct (response !! "output") as [out|] eqn:Ho.
        -- rewrite (main_loop_next X _ _ _ _ _ _ Hq Ha Ho).
           destruct (IH (after_print X out w2))
             as (evs' & pre & Ht' & _ & Hpre & Hi' & Hp' & Hend).
           exists ([EvStdout ask; EvStdin query]
                   ++ (EvInvoke (input_of query) :: evs)
                   ++ EvStdout (response_header +:+ " " +:+ py_str out +:+ nl)
                      :: evs'),
                  (query :: pre).
           rewrite Ht', after_print_trace, Ht, <- !app_assoc.
           split; [reflexivity|].
           split; [simpl; eauto|].
           split; [constructor; assumption|].
           cbn [app invocations lines_read eofs].
           rewrite invocations_app, lines_read_app, eofs_app.
           cbn [invocations lines_read eofs].
           rewrite Hi, Hl, He, Hi'. cbn [app map Nat.add].
           split; [reflexivity|].
           split.
           { unfold prompts in *. cbn [app written]. rewrite written_app.
             cbn [written]. rewrite Hw. cbn [app List.filter String.eqb].
             rewrite String.eqb_refl, response_is_no_prompt.
             cbn [length]. rewrite Hp'. reflexivity. }
           destruct Hend as [(q & rest0 & -> & Hqq & Hr & Hlr & He')
                            |(e0 & Hr & Hlr & Hp & He')].
           ++ left. exists q, rest0. rewrite Hlr. repeat split; auto.
           ++ right. exists e0. rewrite Hlr. repeat split; auto.
              ** apply prefix_cons. exact Hp.
              ** destruct He' as [He'|(He' & -> & ->)]; auto.
        -- eapply Hstop;
             [exact (main_loop_no_output X _ _ _ _ _ Hq Ha Ho) | exact Ht].
      * eapply Hstop; [exact (main_loop_raise X _ _ _ _ _ Hq Ha) | exact Ht].
Qed.

(** What a whole run of the script adds to the trace: the five events of
    start-up and then, when the assembly went through, the banner and the
    events of the loop. *)
Lemma script_events (stdin : list string) (w : World) :
  let x := snd (assemble X (ext X w)) in
  let w1 := snd (print X [PyStr banner] (after_startup X w x)) in
  exists evs,
    events_of (script X stdin) w
    = [EvLoadDotenv; EvGetenv "AZURE_OAI_KEY"; EvGetenv "AZURE_OAI_DEPLOYMENT";
       EvGetenv "AZURE_OAI_ENDPOINT"; EvAssemble] ++ evs /\
    ((exists e,
        fst (assemble X (ext X w)) = Raise e /\ evs = [] /\
        script X stdin w = (Raise e, after_startup X w x)) \/
     (exists evs',
        fst (assemble X (ext X w)) = Ok tt /\
        evs = EvStdout (banner +:+ nl) :: evs' /\
        script X stdin w = main_loop X stdin w1 /\
        trace X (snd (main_loop X stdin w1)) = trace X w1 ++ evs')).
Proof.
  cbv zeta. unfold events_of. rewrite script_run.
  destruct (fst (assemble X (ext X w))) as [[]|e] eqn:Ha.
  - rewrite main_run.
    destruct (main_loop_run stdin
                (snd (print X [PyStr banner]
                        (after_startup X w (snd (assemble X (ext X w)))))))
      as (evs' & _ & Ht & _).
    exists (EvStdout (banner +:+ nl) :: evs'). split.
    + rewrite Ht. cbn [print emit snd trace after_startup join_space map py_str].
      rewrite <- !app_assoc, drop_app_length. reflexivity.
    + right. exists evs'. repeat split. exact Ht.
  - exists []. split.
    + cbn [snd after_startup trace]. rewrite drop_app_length. reflexivity.
    + left. exists e. repeat split.
Qed.

(** *** Properties of whole runs *)

(** X1.  Over a whole run of the script, whatever the services answer, the
    lines read are the first lines of standard input, and the executor is
    called once for each line read that is not a spelling of [quit], with
    that line as its input, in the order of the lines, and for nothing
    else. *)
Theorem one_call_per_line (stdin : list string) (w : World) :
  let evs := events_of (script X stdin) w in
  invocations evs
  = map input_of (List.filter (fun l => negb (is_quit l)) (lines_read evs)) /\
  lines_read evs `prefix_of` stdin.
Proof.
  cbv zeta. destruct (script_events stdin w) as (evs & -> & Hcases).
  cbn [app invocations lines_read].
  destruct Hcases as [(e & _ & -> & _)|(evs' & _ & -> & _ & Ht)].
  - split; [reflexivity | apply prefix_nil].
  - cbn [invocations lines_read].
    match type of Ht with
    | trace X (snd (main_loop X stdin ?w1)) = _ =>
        destruct (main_loop_invocations X stdin w1) as (evs2 & Ht2 & Hi & Hp)
    end.
    rewrite Ht in Ht2. apply app_inv_head in Ht2. subst evs2. auto.
Qed.

Lemma clean_exit_run (stdin : list string) (w : World) :
  exit_status (fst (script X stdin w)) = 0%N ->
  exists pre q rest,
    stdin = pre ++ q :: rest /\
    Forall (fun l => is_quit l = false) pre /\ is_quit q = true /\
    fst (script X stdin w) = Ok rest /\
    invocations (events_of (script X stdin) w) = map input_of pre /\
    lines_read (events_of (script X stdin) w) = pre ++ [q].
Proof.
  intros Hexit. destruct (script_events stdin w) as (evs & -> & Hcases).
  destruct Hcases as [(e & _ & _ & Hs)|(evs' & _ & -> & Hs & Ht)].
  - rewrite Hs in Hexit. discriminate Hexit.
  - match type of Ht with
    | trace X (snd (main_loop X stdin ?w1)) = _ =>
        destruct (main_loop_run stdin w1)
          as (evs2 & pre & Ht2 & _ & Hpre & Hi & _ & Hend)
    end.
    rewrite Ht in Ht2. apply app_inv_head in Ht2. subst evs2.
    rewrite Hs in Hexit |- *.
    destruct Hend as [(q & rest & -> & Hq & Hr & Hl & _)|(e & Hr & _)].
    + exists pre, q, rest. cbn [app invocations lines_read]. auto 10.
    + rewrite Hr in Hexit. discriminate Hexit.
Qed.

(** X2.  The process ends with status 0 only when a spelling of [quit] was read:
    standard input then starts with lines that are not [quit], each of
    which was passed to the executor, followed by the [quit] line, and the
    lines after it are left unread. *)
Theorem exit_zero_only_by_quit (stdin : list string) (w : World) :
  exit_status (fst (script X stdin w)) = 0%N ->
  exists pre q rest,
    stdin = pre ++ q :: rest /\
    Forall (fun l => is_quit l = false) pre /\ is_quit q = true /\
    fst (script X stdin w) = Ok rest /\
    invocations (events_of (script X stdin) w) = map input_of pre /\
    lines_read (events_of (script X stdin) w) = pre ++ [q].
Proof. exact (clean_exit_run stdin w). Qed.

(** X3.  When standard input holds no spelling of [quit], the process never
    ends with status 0: it ends with status 1, on an exception of the
    executor or on [EOFError] once the input is used up. *)
Theorem no_quit_no_clean_exit (stdin : list string) (w : World) :
  Forall (fun l => is_quit l = false) stdin ->
  exit_status (fst (script X stdin w)) = 1%N /\
  (eofs (events_of (script X stdin) w) = 1 ->
   fst (script X stdin w) = Raise eof_error /\
   lines_read (events_of (script X stdin) w) = stdin /\
   invocations (events_of (script X stdin) w) = map input_of stdin).
Proof.
  intros Hnq.
  assert (Hexit : exit_status (fst (script X stdin w)) = 1%N).
  { destruct (fst (script X stdin w)) as [rest|e] eqn:Hr; [|reflexivity].
    destruct (clean_exit_run stdin w)
      as (pre & q & rest' & -> & _ & Hq & _); [rewrite Hr; reflexivity|].
    apply Forall_app in Hnq as [_ Hnq]. apply Forall_cons in Hnq as [Hnq _].
    congruence. }
  split; [exact Hexit|].
  destruct (script_events stdin w) as (evs & -> & Hcases).
  destruct Hcases as [(e & _ & -> & Hs)|(evs' & _ & -> & Hs & Ht)].
  - intros [=].
  - match type of Ht with
    | trace X (snd (main_loop X stdin ?w1)) = _ =>
        destruct (main_loop_run stdin w1)
          as (evs2 & pre & Ht2 & _ & Hpre & Hi & _ & Hend)
    end.
    rewrite Ht in Ht2. apply app_inv_head in Ht2. subst evs2.
    cbn [app eofs invocations lines_read]. intros Heof. rewrite Hs.
    destruct Hend as [(q & rest & _ & _ & _ & _ & He)
                     |(e & Hr & Hl & _ & [He|(_ & -> & ->)])];
      try congruence.
    auto.
Qed.

(** X4.  Nothing is read after [quit]: in the lines a run has read, a spelling
    of [quit] can only be the last one, and no line before it is one. *)
Theorem nothing_read_after_quit
    (stdin : list string) (w : World) (pre : list string) (q : string)
    (post : list string) :
  lines_read (events_of (script X stdin) w) = pre ++ q :: post ->
  is_quit q = true ->
  post = [] /\ Forall (fun l => is_quit l = false) pre.
Proof.
  intros Hl Hq. destruct (script_events stdin w) as (evs & Hev & Hcases).
  rewrite Hev in Hl. cbn [app lines_read] in Hl.
  assert (Hshape : exists pre', Forall (fun l => is_quit l = false) pre' /\
            (lines_read evs = pre' \/
             exists q', lines_read evs = pre' ++ [q'])).
  { destruct Hcases as [(e & _ & -> & _)|(evs' & _ & -> & _ & Ht)].
    - exists []. split; [constructor | left; reflexivity].
    - match type of Ht with
      | trace X (snd (main_loop X stdin ?w1)) = _ =>
          destruct (main_loop_run stdin w1)
            as (evs2 & pre' & Ht2 & _ & Hpre & _ & _ & Hend)
      end.
      rewrite Ht in Ht2. apply app_inv_head in Ht2. subst evs2.
      exists pre'. split; [exact Hpre|]. cbn [lines_read].
      destruct Hend as [(q' & rest & _ & _ & _ & Hlr & _)|(e & _ & Hlr & _)];
        eauto. }
  destruct Hshape as (pre' & Hpre & Hlines).
  assert (Hin : forall l, In l pre' -> is_quit l = false).
  { intros l Hin. rewrite List.Forall_forall in Hpre. auto. }
  destruct Hlines as [Hlines|(q' & Hlines)]; rewrite Hlines in Hl.
  - exfalso. assert (is_quit q = false); [|congruence].
    apply Hin. rewrite Hl. apply in_elt.
  - destruct post as [|z post] using rev_ind.
    + apply app_inj_tail in Hl as [-> _]. auto.
    + exfalso. clear IHpost.
      change (pre ++ q :: post ++ [z]) with (pre ++ (q :: post) ++ [z]) in Hl.
      rewrite app_assoc in Hl. apply app_inj_tail in Hl as [-> _].
      assert (is_quit q = false); [|congruence].
      apply Hin. apply in_or_app. right. left. reflexivity.
Qed.

(** X5.  The script prompts once for each line it reads, and once more when it
    finds standard input at its end; the banner comes first, and only when
    the agent could be assembled. *)
Theorem prompts_and_banner (stdin : list string) (w : World) :
  let evs := events_of (script X stdin) w in
  prompts evs = length (lines_read evs) + eofs evs /\
  (forall e, fst (assemble X (ext X w)) = Raise e ->
             written evs = [] /\ lines_read evs = [] /\
             invocations evs = [] /\
             fst (script X stdin w) = Raise e) /\
  (fst (assemble X (ext X w)) = Ok tt ->
   exists rest, written evs = (banner +:+ nl) :: ask :: rest).
Proof.
  cbv zeta. destruct (script_events stdin w) as (evs & -> & Hcases).
  unfold prompts. cbn [app written lines_read eofs invocations].
  destruct Hcases as [(e & Ha & -> & Hs)|(evs' & Ha & -> & Hs & Ht)].
  - rewrite Ha, Hs. split; [reflexivity|].
    split; [intros e' [= <-]; repeat split | intros [=]].
  - rewrite Ha.
    match type of Ht with
    | trace X (snd (main_loop X stdin ?w1)) = _ =>
        destruct (main_loop_run stdin w1)
          as (evs2 & pre & Ht2 & (tl & Hw) & _ & _ & Hp & _)
    end.
    rewrite Ht in Ht2. apply app_inv_head in Ht2. subst evs2.
    cbn [written lines_read eofs List.filter].
    replace (ask =? banner +:+ nl) with false by reflexivity.
    split; [exact Hp|]. split; [intros ? [=]|].
    intros _. rewrite Hw. cbn [written]. eauto.
Qed.

(** X6.  A result of the executor with no [output] in it is fatal too: at
    whatever turn, the [KeyError] of [response["output"]] ends [main] and
    the process, with status 1, in the world the executor left: nothing is
    printed for that turn and nothing more is read. *)
Theorem missing_output_fatal
    (stdin : list string) (w0 w : World)
    (query : string) (rest : list string) (w1 : World)
    (response : gmap string pyval) (w2 : World) :
  startup X w0 = (Ok tt, w) ->
  awaiting X stdin (snd (print X [PyStr banner] w)) (query :: rest) w1 ->
  is_quit query = false ->
  ainvoke X (input_of query) (after_input X query w1) = (Ok response, w2) ->
  response !! "output" = None ->
  script X stdin w0 = (Raise (key_error "output"), w2) /\
  exc_str (key_error "output") = "'output'" /\
  exit_status (fst (script X stdin w0)) = 1%N.
Proof.
  intros Hs Hreach Hq Ha Ho.
  assert (H : script X stdin w0 = (Raise (key_error "output"), w2)).
  { unfold script, bind at 1. rewrite Hs, main_run.
    rewrite (awaiting_main_loop X _ _ _ _ Hreach).
    exact (main_loop_no_output X _ _ _ _ _ Hq Ha Ho). }
  rewrite H. repeat split.
Qed.

End RunFacts.

(** ** More on the tools *)

Section ToolFacts.

Context (X : Externals).

#[local] Abbreviation World' := (World X).

Lemma tool_result (t : tool_id) (a : string) (w : World') :
  exists v,
    fst (func X (tool X t) a w) = Ok v /\
    (t <> KnowledgeBase -> is_str v = true).
Proof.
  destruct t; cbn [tool func].
  - unfold get_current_datetime, bind, emit, call, ret.
    cbn [fst snd environ globals ext trace].
    destruct (now X (ext X w)) as [d x]. eexists. split; reflexivity.
  - unfold get_wikipedia_summary, try_except, bind, emit, call, ret.
    cbn [fst snd environ globals ext trace].
    destruct (wikipedia_summary X a (ext X w)) as [[s|e] x];
      cbn [fst snd dispatch]; [eexists; split; reflexivity|].
    destruct (isinstance e DisambiguationError);
      [|destruct (isinstance e PageError); [|rewrite isinstance_Exception]];
      eexists; split; reflexivity.
  - rewrite search_company_docs_fst.
    destruct (fst (search_attempt X a w)); eexists; (split; [reflexivity|]);
      intros H; contradiction H; reflexivity.
Qed.

(** X7.  Every entry of the [tools] list returns a value whatever its input and
    whatever the services do: no tool raises.  The date tool and the
    encyclopedia tool always return a string. *)
Theorem every_tool_returns (t : tool_id) (a : string) (w : World') :
  exists v,
    fst (func X (tool X t) a w) = Ok v /\
    (t <> KnowledgeBase -> is_str v = true).
Proof. exact (tool_result t a w). Qed.

(** X8.  A turn of the executor cannot fail through a tool: whatever tools
    it uses and whatever they meet, the run gets to the executor's own
    last step, and the call returns or raises as that step does, in the
    state the tools left; in particular, when that step returns, the call
    returns. *)
Theorem tools_never_abort_a_turn (p : agent_run (Ext X)) (w : World') :
  exists r,
    fst (last_step X p w) = Ok r /\
    run_agent X p w = call X r (snd (last_step X p w)) /\
    fst (run_agent X p w) = fst (r (ext X (snd (last_step X p w)))) /\
    (forall d,
       fst (r (ext X (snd (last_step X p w)))) = Ok d ->
       fst (run_agent X p w) = Ok d).
Proof.
  assert (H : exists r,
            fst (last_step X p w) = Ok r /\
            run_agent X p w = call X r (snd (last_step X p w))).
  { revert w. induction p as [r | s k IH | t a k IH]; intros w;
      cbn [last_step run_agent].
    - exists r. split; reflexivity.
    - unfold bind, emit. apply IH.
    - unfold bind. destruct (tool_result t a w) as (v & Hv & _).
      destruct (func X (tool X t) a w) as [r' w1]. simpl in Hv. subst r'.
      apply IH. }
  destruct H as (r & Hl & Hrun). exists r.
  assert (Hfst : fst (run_agent X p w)
                 = fst (r (ext X (snd (last_step X p w))))).
  { rewrite Hrun. unfold call.
    destruct (r (ext X (snd (last_step X p w)))). reflexivity. }
  repeat split; auto. intros d Hd. congruence.
Qed.

(** X9.  The search tool sends at most one request per call.  When it sends one,
    the client was built and the three search settings were set; the
    request names the deployment bound at start-up, carries the query,
    unchanged, as its single user message, and has one [azure_search] data
    source with the three settings as found in the environment. *)
Theorem search_request_sent (query : string) (w : World') (r : request) :
  In r (requests (events_of (search_company_docs X query) w)) ->
  requests (events_of (search_company_docs X query) w) = [r] /\
  model r = deployment (globals X w) /\
  messages r = [ {[ "role" := "user" ]} ∪ {[ "content" := query ]} ] /\
  exists se si sk,
    environ X w !! "AZURE_SEARCH_ENDPOINT" = Some se /\
    environ X w !! "AZURE_SEARCH_INDEX" = Some si /\
    environ X w !! "AZURE_SEARCH_KEY" = Some sk /\
    data_sources r = [ {| ds_type := "azure_search"; ds_endpoint := se;
                          ds_index_name := si; ds_auth_type := "api_key";
                          ds_key := sk |} ] /\
    exists client x,
      AzureOpenAI X (client_arguments (globals X w)) (ext X w) = (Ok client, x).
Proof.
  unfold events_of.
  rewrite search_company_docs_snd, search_attempt_trace. cbv zeta.
  rewrite drop_app_length. cbn [requests].
  destruct (AzureOpenAI X (client_arguments (globals X w)) (ext X w))
    as [[client|e] x]; [|intros []].
  rewrite requests_app.
  replace (requests (map EvGetenv (looked_up (environ X w) search_settings)))
    with (@nil request) by (induction (looked_up _ _); simpl; congruence).
  cbn [app].
  destruct (environ X w !! "AZURE_SEARCH_ENDPOINT") as [se|]; [|intros []].
  destruct (environ X w !! "AZURE_SEARCH_INDEX") as [si|]; [|intros []].
  destruct (environ X w !! "AZURE_SEARCH_KEY") as [sk|]; [|intros []].
  cbn [requests]. intros [<-|[]].
  repeat split. exists se, si, sk. repeat split. eauto.
Qed.

(** X10.  Each call of the search tool builds one client, before anything
    else, and the arguments it passes to the constructor are the
    configuration names as they were bound at start-up: the endpoint and
    the key found then, and version [2024-02-01].  What the environment
    holds at the time of the call does not enter these arguments, and the
    tool itself looks up no name in it but the three search settings.
    (What the constructor reads on its own is the library's business, not
    the script's, and no part of this statement.) *)
Theorem search_client_from_startup
    (query : string) (w0 w : World') (x : Ext X) :
  globals X w = globals X (after_startup X w0 x) ->
  let env0 := environ X w0 ∪ dotenv_values X (ext X w0) in
  exists evs,
    events_of (search_company_docs X query) w
    = EvClient {| azure_endpoint := of_option (env0 !! "AZURE_OAI_ENDPOINT");
                  api_key := of_option (env0 !! "AZURE_OAI_KEY");
                  client_api_version := "2024-02-01" |} :: evs /\
    clients evs = [] /\
    (forall k, In k (names_read evs) -> In k search_settings).
Proof.
  intros Hg. cbv zeta. unfold events_of.
  rewrite search_company_docs_snd, search_attempt_trace. cbv zeta.
  rewrite drop_app_length, Hg. unfold client_arguments.
  cbn [after_startup globals endpoint openai_api_key api_version].
  eexists. split; [reflexivity|].
  destruct (AzureOpenAI X _ _) as [[client|e] x'];
    [|split; [reflexivity | intros k []]].
  rewrite clients_app, names_read_app.
  replace (clients (map EvGetenv (looked_up (environ X w) search_settings)))
    with (@nil client_args) by (induction (looked_up _ _); simpl; congruence).
  replace (names_read (map EvGetenv (looked_up (environ X w) search_settings)))
    with (looked_up (environ X w) search_settings)
    by (induction (looked_up _ _); simpl; congruence).
  unfold search_settings. cbn [looked_up].
  repeat match goal with
         | |- context [environ X w !! ?k] => destruct (environ X w !! k)
         end;
    (split; [reflexivity|]); cbn [app names_read In]; intros k Hk; tauto.
Qed.

(** X11.  An answer of the chat service with no choice in it does not make the
    search tool fail: the [IndexError] of [choices[0]] comes back as
    text. *)
Theorem search_no_choice
    (query : string) (w : World') (client : Client X) (x x' : Ext X)
    (se si sk : string) (c : completion) :
  AzureOpenAI X (client_arguments (globals X w)) (ext X w) = (Ok client, x) ->
  environ X w !! "AZURE_SEARCH_ENDPOINT" = Some se ->
  environ X w !! "AZURE_SEARCH_INDEX" = Some si ->
  environ X w !! "AZURE_SEARCH_KEY" = Some sk ->
  chat_completions_create X client
    (search_request (globals X w) query se si sk) x = (Ok c, x') ->
  choices c = [] ->
  fst (search_company_docs X query w)
  = Ok (PyStr "Search error: list index out of range").
Proof.
  intros Hc He Hi Hk Hr Hch.
  rewrite search_company_docs_fst, search_attempt_fst. cbv zeta.
  rewrite Hc, He, Hi, Hk, Hr, Hch. reflexivity.
Qed.

(** X12.  After start-up nothing in the script writes to [os.environ]: the tools,
    a call of the executor and the loop leave it as it is.  Start-up adds
    the bindings of the [.env] file to it, and a variable that was already
    set keeps its value. *)
Theorem environment_only_grows_at_startup :
  (forall t a (w : World'), environ X (snd (func X (tool X t) a w)) = environ X w) /\
  (forall d (w : World'), environ X (snd (ainvoke X d w)) = environ X w) /\
  (forall stdin (w : World'), environ X (snd (main X stdin w)) = environ X w) /\
  (forall stdin (w : World'),
     environ X (snd (script X stdin w))
     = environ X w ∪ dotenv_values X (ext X w)) /\
  (forall stdin (w : World') k v,
     environ X w !! k = Some v ->
     environ X (snd (script X stdin w)) !! k = Some v).
Proof.
  assert (Hmain : forall stdin (w : World'),
            environ X (snd (main X stdin w)) = environ X w).
  { intros stdin w. unfold main, bind at 1. cbn [print emit].
    destruct (frames_main_loop X stdin
                (snd (print X [PyStr banner] w))) as (He & _).
    exact He. }
  assert (Hscript : forall stdin (w : World'),
            environ X (snd (script X stdin w))
            = environ X w ∪ dotenv_values X (ext X w)).
  { intros stdin w. rewrite script_run.
    destruct (fst (assemble X (ext X w))); [rewrite Hmain|]; reflexivity. }
  split; [|split; [|split; [|split]]].
  - intros t a w. apply (frames_tool X t a w).
  - intros d w. apply (ainvoke_trace X d w).
  - exact Hmain.
  - exact Hscript.
  - intros stdin w k v Hk. rewrite Hscript.
    apply lookup_union_Some_l. exact Hk.
Qed.

(** X13.  Where the configuration comes from: for each of the three settings,
    the process environment first, the [.env] file when the environment
    does not have it, and [None], with no failure, when neither has it. *)
Theorem configuration_precedence (w : World') :
  let pick k :=
    match environ X w !! k with
    | Some v => PyStr v
    | None => of_option (dotenv_values X (ext X w) !! k)
    end in
  fst (load_environment X w) = Ok tt /\
  globals X (snd (load_environment X w))
  = {| openai_api_key := pick "AZURE_OAI_KEY";
       deployment := pick "AZURE_OAI_DEPLOYMENT";
       endpoint := pick "AZURE_OAI_ENDPOINT";
       api_version := "2024-02-01" |}.
Proof.
  cbv zeta. rewrite load_environment_run. cbv zeta. cbn [fst snd globals].
  split; [reflexivity|].
  assert (H : forall k,
            of_option ((environ X w ∪ dotenv_values X (ext X w)) !! k)
            = match environ X w !! k with
              | Some v => PyStr v
              | None => of_option (dotenv_values X (ext X w) !! k)
              end).
  { intros k. destruct (environ X w !! k) as [v|] eqn:E.
    - rewrite (lookup_union_Some_l _ _ _ _ E). reflexivity.
    - rewrite lookup_union_r by exact E. reflexivity. }
  rewrite !H. reflexivity.
Qed.

(** X14.  The date tool's answer has 19 characters, or 26 when the clock reads a
    microsecond that is not zero. *)
Theorem datetime_tool_length
    (args : list pyval) (kwargs : gmap string pyval) (w : World') :
  exists s,
    fst (get_current_datetime X args kwargs w) = Ok (PyStr s) /\
    String.length s
    = if (Datetime.microsecond (fst (now X (ext X w))) =? 0)%N then 19 else 26.
Proof.
  unfold get_current_datetime, bind, emit, call, ret.
  cbn [fst snd environ globals ext trace].
  destruct (now X (ext X w)) as [d x]. cbn [fst].
  eexists. split; [reflexivity|]. apply MoreDatetimeFacts.isoformat_length.
Qed.

End ToolFacts.

(** X15.  The lines that end the loop are the sixteen spellings of [quit], and
    no other. *)
Theorem quit_spellings_exactly (query : string) :
  is_quit query = true <-> In query Str.quit_spellings.
Proof.
  split.
  - unfold is_quit. intros H. apply String.eqb_eq in H.
    destruct query as [|a [|b [|c [|d [|z query]]]]]; try discriminate H.
    injection H as Ha Hb Hc Hd.
    apply MoreStrFacts.lower_char_inv in Ha, Hb, Hc, Hd.
    cbv in Ha, Hb, Hc, Hd.
    destruct Ha as [->| ->], Hb as [->| ->], Hc as [->| ->], Hd as [->| ->];
      simpl; tauto.
  - intros H. pose proof MoreStrFacts.quit_spellings_quit as Hall.
    rewrite List.forallb_forall in Hall. apply Hall. exact H.
Qed.

(** ** The claims on a concrete run *)

(** [QUIT] ends the loop with the next line unread; [hello] is passed to the
    executor, its answer is printed and the loop goes on with the next
    line. *)
Lemma C1_loop_turn_witness :
  main_loop Demo.services ["QUIT"; "hello"] (Demo.greeted Demo.full)
  = (Ok ["hello"],
     after_input Demo.services "QUIT" (Demo.greeted Demo.full)) /\
  exists w2,
    main_loop Demo.services ["hello"; "quit"] (Demo.greeted Demo.full)
    = main_loop Demo.services ["quit"]
        (after_print Demo.services (PyStr "echo hello") w2).
Proof.
  split.
  - apply (proj1 (C1_loop_turn Demo.services "QUIT" ["hello"]
                    (Demo.greeted Demo.full))).
    reflexivity.
  - eexists.
    apply (proj2 (proj2 (C1_loop_turn Demo.services "hello" ["quit"]
                           (Demo.greeted Demo.full)) eq_refl)
             _ _ (PyStr "echo hello") eq_refl).
    reflexivity.
Defined.

Lemma C2_wikipedia_never_raises_witness :
  fst (get_wikipedia_summary Demo.services "Mercury" (Demo.started Demo.full))
  = Ok (PyStr "Disambiguation error: Mercury may refer to: planet, element").
Proof.
  destruct (C2_wikipedia_never_raises Demo.services "Mercury"
              (Demo.started Demo.full)) as (s & Hs & _ & He).
  destruct (He _ eq_refl) as (Hd & _).
  destruct (Hd eq_refl) as (-> & _). exact Hs.
Defined.

Lemma C3_search_never_raises_witness :
  fst (search_company_docs Demo.services "opening hours"
         (Demo.started Demo.no_search_endpoint))
  = Ok (PyStr "Search error: 'AZURE_SEARCH_ENDPOINT'").
Proof.
  destruct (C3_search_never_raises Demo.services "opening hours"
              (Demo.started Demo.no_search_endpoint))
    as (v & Hv & Hraise & _ & _ & Hmissing & _).
  destruct (Hraise _ (Hmissing _ _ "AZURE_SEARCH_ENDPOINT"
                        eq_refl eq_refl eq_refl))
    as (msg & -> & -> & _).
  exact Hv.
Defined.

Lemma C5_loader_reads_three_witness :
  ~ In "AZURE_SEARCH_KEY"
      (names_read (events_of (load_environment Demo.services) Demo.full)).
Proof.
  apply (proj1 (proj2 (proj2 (C5_loader_reads_three Demo.services Demo.full)))).
  simpl. auto.
Defined.

Lemma C6_search_settings_read_at_call_witness :
  names_read (events_of (search_company_docs Demo.services "opening hours")
                (Demo.started Demo.full))
  = ["AZURE_SEARCH_ENDPOINT"; "AZURE_SEARCH_INDEX"; "AZURE_SEARCH_KEY"].
Proof.
  set (w := Demo.started Demo.full).
  assert (Hc : AzureOpenAI Demo.services
                 (client_arguments (globals Demo.services w))
                 (ext Demo.services w)
               = (Ok (client_arguments (globals Demo.services w)),
                  ext Demo.services w)) by reflexivity.
  destruct (C6_search_settings_read_at_call Demo.services "opening hours"
              w _ _ Hc) as [_ H].
  destruct (H "https://search.example/" "margies-index" "admin-key")
    as [Hn _]; [vm_compute; reflexivity ..|].
  exact Hn.
Defined.

Lemma C7_executor_exception_fatal_witness :
  exit_status (fst (script Demo.services ["time"; "crash"; "never read"]
                      Demo.full)) = 1%N.
Proof.
  set (w := Demo.started Demo.full).
  set (w1 := Demo.after_time Demo.full).
  set (e := {| exc_type := LibraryError "APIError"; exc_str := "rate limit" |}).
  set (w2 := snd (ainvoke Demo.services (input_of "crash")
                    (after_input Demo.services "crash" w1))).
  refine (proj2 (proj2 (proj2
    (C7_executor_exception_fatal Demo.services
       ["time"; "crash"; "never read"] Demo.full w
       "crash" ["never read"] w1 e w2 _ _ _ _)))).
  - vm_compute; reflexivity.
  - apply (awaiting_turn Demo.services "time" ["crash"; "never read"]
             (Demo.greeted Demo.full)
             (fst (Demo.answer_time Demo.full))
             (snd (Demo.answer_time Demo.full))
             (PyStr "2024-02-29T12:00:07.001500")).
    + vm_compute; reflexivity.
    + vm_compute; reflexivity.
    + vm_compute; reflexivity.
    + apply awaiting_here.
  - vm_compute; reflexivity.
  - vm_compute; reflexivity.
Defined.

Lemma C9_quit_not_trimmed_witness :
  is_quit "quit " = false /\
  is_quit ("QUIT" +:+ Str.utf8 160) = false /\
  In (EvInvoke {[ "input" := PyStr "quit " ]})
     (trace Demo.services
        (snd (main_loop Demo.services ["quit "] (Demo.greeted Demo.full)))) /\
  main_loop Demo.services ["quit "; "quit"] (Demo.greeted Demo.full)
  = main_loop Demo.services ["quit"]
      (after_print Demo.services (PyStr "echo quit ")
         (snd (ainvoke Demo.services {[ "input" := PyStr "quit " ]}
                 (after_input Demo.services "quit "
                    (Demo.greeted Demo.full))))).
Proof.
  destruct (C9_quit_not_trimmed Demo.services "quit " []
              (Demo.greeted Demo.full))
    as (Hq & _ & (evs & Ht) & _);
    [intros H; vm_compute in H; discriminate H | reflexivity |].
  destruct (C9_quit_not_trimmed Demo.services ("QUIT" +:+ Str.utf8 160) []
              (Demo.greeted Demo.full))
    as (Hq' & _);
    [intros H; vm_compute in H; discriminate H | reflexivity |].
  destruct (C9_quit_not_trimmed Demo.services "quit " ["quit"]
              (Demo.greeted Demo.full))
    as (_ & _ & _ & _ & _ & Hnext & _);
    [intros H; vm_compute in H; discriminate H | reflexivity |].
  split; [exact Hq|]. split; [exact Hq'|]. split.
  - rewrite Ht. apply in_or_app. right. simpl. auto.
  - apply (Hnext (Demo.answer "quit " (PyStr "echo quit "))).
    + vm_compute. reflexivity.
    + vm_compute. reflexivity.
Defined.

Lemma C10_search_returns_none_witness :
  fst (search_company_docs Demo.services "empty" (Demo.started Demo.full))
  = Ok PyNone.
Proof.
  set (w := Demo.started Demo.full).
  refine (proj1
    (C10_search_returns_none Demo.services "empty" w
       (client_arguments (globals Demo.services w)) (ext Demo.services w)
       (S (ext Demo.services w))
       "https://search.example/" "margies-index" "admin-key"
       {| choices := [ {| message := {| content := PyNone |} |} ] |}
       {| message := {| content := PyNone |} |} []
       _ _ _ _ _ _ _)); vm_compute; reflexivity.
Defined.

(** ** Where the code departs from the specification's wording *)

(** C5 as worded fails: with the six listed settings all in the environment,
    start-up looks up three names, not five, and none of the search
    settings. *)
Lemma C5_counterexample :
  (forall k, In k Demo.listed_settings ->
             is_Some (environ Demo.services Demo.full !! k)
             \/ is_Some (dotenv_values Demo.services 0 !! k)) /\
  names_read (events_of (startup Demo.services) Demo.full)
    = ["AZURE_OAI_KEY"; "AZURE_OAI_DEPLOYMENT"; "AZURE_OAI_ENDPOINT"] /\
  length (names_read (events_of (startup Demo.services) Demo.full)) <> 5 /\
  ~ (forall k, In k Demo.listed_settings ->
               In k (names_read (events_of (startup Demo.services) Demo.full))).
Proof.
  split; [|split; [reflexivity|split]].
  - intros k Hk. simpl in Hk. decompose [or] Hk; subst; try contradiction;
      first [ left; vm_compute; eexists; reflexivity
            | right; vm_compute; eexists; reflexivity ].
  - vm_compute. discriminate.
  - intros H. specialize (H "AZURE_SEARCH_ENDPOINT").
    vm_compute in H. intuition congruence.
Qed.

(** C6 as worded fails: in a call made while [AZURE_SEARCH_ENDPOINT] is not
    set, the two other settings, which are set, are not looked up. *)
Lemma C6_counterexample :
  let w := Demo.started Demo.no_search_endpoint in
  environ Demo.services w !! "AZURE_SEARCH_KEY" = Some "admin-key" /\
  environ Demo.services w !! "AZURE_SEARCH_INDEX" = Some "margies-index" /\
  names_read (events_of (search_company_docs Demo.services "opening hours") w)
    = ["AZURE_SEARCH_ENDPOINT"] /\
  ~ (forall k, In k search_settings ->
               In k (names_read
                       (events_of
                          (search_company_docs Demo.services "opening hours")
                          w))).
Proof.
  cbv zeta. split; [reflexivity|split; [reflexivity|split; [reflexivity|]]].
  intros H. specialize (H "AZURE_SEARCH_KEY").
  vm_compute in H. intuition congruence.
Qed.

(** ** The further properties on concrete runs *)

Lemma exit_zero_only_by_quit_witness :
  exists pre q rest,
    ["hello"; "QUIT"; "unread"] = pre ++ q :: rest /\
    Forall (fun l => is_quit l = false) pre /\ is_quit q = true /\
    fst (script Demo.services ["hello"; "QUIT"; "unread"] Demo.full) = Ok rest /\
    invocations (events_of (script Demo.services ["hello"; "QUIT"; "unread"])
                   Demo.full) = map input_of pre /\
    lines_read (events_of (script Demo.services ["hello"; "QUIT"; "unread"])
                  Demo.full) = pre ++ [q].
Proof.
  apply (exit_zero_only_by_quit Demo.services ["hello"; "QUIT"; "unread"]
           Demo.full).
  vm_compute. reflexivity.
Defined.

Lemma no_quit_no_clean_exit_witness :
  exit_status (fst (script Demo.services ["hello"; "quit now"] Demo.full))
  = 1%N.
Proof.
  apply (no_quit_no_clean_exit Demo.services ["hello"; "quit now"] Demo.full).
  repeat constructor.
Defined.

Lemma nothing_read_after_quit_witness :
  @nil string = [] /\ Forall (fun l => is_quit l = false) ["hello"].
Proof.
  apply (nothing_read_after_quit Demo.services ["hello"; "quit"; "unread"]
           Demo.full ["hello"] "quit" []).
  - vm_compute. reflexivity.
  - reflexivity.
Defined.

Lemma prompts_and_banner_witness :
  exists rest,
    written (events_of (script Demo.services ["hello"]) Demo.full)
    = (banner +:+ nl) :: ask :: rest.
Proof.
  apply (proj2 (proj2 (prompts_and_banner Demo.services ["hello"] Demo.full))).
  reflexivity.
Defined.

Lemma missing_output_fatal_witness :
  exit_status (fst (script Trial.services ["hello"; "unread"] Trial.full))
  = 1%N.
Proof.
  refine (proj2 (proj2
    (missing_output_fatal Trial.services ["hello"; "unread"]
       Trial.full Trial.started "hello" ["unread"] Trial.greeted
       (input_of "hello")
       (snd (ainvoke Trial.services (input_of "hello")
               (after_input Trial.services "hello" Trial.greeted)))
       _ _ _ _ _))).
  - vm_compute. reflexivity.
  - apply awaiting_here.
  - reflexivity.
  - vm_compute. reflexivity.
  - vm_compute. reflexivity.
Defined.

Lemma every_tool_returns_witness :
  exists v,
    fst (func Demo.services (tool Demo.services Wikipedia) "xyzzy"
           (Demo.started Demo.full)) = Ok v /\
    is_str v = true.
Proof.
  destruct (every_tool_returns Demo.services Wikipedia "xyzzy"
              (Demo.started Demo.full)) as (v & Hv & Hs).
  exists v. split; [exact Hv|]. apply Hs. discriminate.
Defined.

Lemma tools_never_abort_a_turn_witness :
  fst (run_agent Demo.services (Demo.executor (input_of "time") 0)
         (Demo.started Demo.full))
  = Ok (Demo.answer "time" (PyStr "2024-02-29T12:00:07.001500")).
Proof.
  destruct (tools_never_abort_a_turn Demo.services
              (Demo.executor (input_of "time") 0) (Demo.started Demo.full))
    as (r & Hl & _ & _ & Hok).
  apply Hok. vm_compute in Hl. injection Hl as <-. reflexivity.
Defined.

Lemma search_request_sent_witness :
  requests (events_of (search_company_docs Demo.services "opening hours")
              (Demo.started Demo.full))
  = [search_request (globals Demo.services (Demo.started Demo.full))
       "opening hours" "https://search.example/" "margies-index" "admin-key"].
Proof.
  apply (search_request_sent Demo.services "opening hours"
           (Demo.started Demo.full)).
  vm_compute. left. reflexivity.
Defined.

Lemma search_client_from_startup_witness :
  exists evs,
    events_of (search_company_docs Demo.services "opening hours") Trial.emptied
    = EvClient {| azure_endpoint := PyStr "https://oai.example/";
                  api_key := PyStr "secret";
                  client_api_version := "2024-02-01" |} :: evs /\
    clients evs = [] /\
    (forall k, In k (names_read evs) -> In k search_settings).
Proof.
  apply (search_client_from_startup Demo.services "opening hours"
           Demo.full Trial.emptied 0).
  vm_compute. reflexivity.
Defined.

Lemma search_no_choice_witness :
  fst (search_company_docs Trial.services "opening hours" Trial.started)
  = Ok (PyStr "Search error: list index out of range").
Proof.
  refine (search_no_choice Trial.services "opening hours" Trial.started
            (client_arguments (globals Trial.services Trial.started))
            (ext Trial.services Trial.started)
            (S (ext Trial.services Trial.started))
            "https://search.example/" "margies-index" "admin-key"
            {| choices := [] |} _ _ _ _ _ _);
    vm_compute; reflexivity.
Defined.

Lemma environment_only_grows_at_startup_witness :
  environ Demo.services
    (snd (script Demo.services ["quit"] Demo.full)) !! "AZURE_SEARCH_KEY"
  = Some "admin-key".
Proof.
  apply (proj2 (proj2 (proj2 (proj2
           (environment_only_grows_at_startup Demo.services))))).
  vm_compute. reflexivity.
Defined.

Lemma quit_spellings_exactly_witness : is_quit "QuIt" = true.
Proof.
  apply (proj2 (quit_spellings_exactly "QuIt")). simpl. tauto.
Defined.
